(** * Artist portfolio: the artwork upload form and the admin panel

    A shallow embedding of [client/src/components/Admin/ArtworkUpload.tsx]
    and of the [AdminPanel] component, with the properties of the
    upload / admin workflow stated over it.

    React components are modelled as their state, their event handlers and
    their render function.  A handler is a computation over the component
    state that logs the effects it requests (toasts, HTTP requests, cache
    invalidations); asynchronous code is cut at its [await]: what is sent,
    and what happens when the response arrives. *)

From Stdlib Require Import ZArith List String Ascii Bool Lia.
From Stdlib Require Import DecimalString Sorted Permutation.
Import ListNotations.
Local Open Scope string_scope.
Local Open Scope Z_scope.

(** ** JavaScript values, as far as the components use them *)

Module Js.

(** Values a form field can hold.  Numbers reach the form through
    [parseInt] (the year input), so a number is an integer or [NaN]. *)
Inductive value : Type :=
| Undefined
| Null
| Bool (b : bool)
| Num (z : Z)
| NaN
| Str (s : string).

(** [s.startsWith(p)] *)
Definition startsWith (s p : string) : bool := String.prefix p s.

(** Truthiness of a string: only the empty string is falsy. *)
Definition truthy (s : string) : bool :=
  match s with
  | EmptyString => false
  | String _ _ => true
  end.

(** [n.toString()] of an integer number. *)
Definition Number_toString (z : Z) : string :=
  NilZero.string_of_int (Z.to_int z).

(** [b.toString()] *)
Definition Boolean_toString (b : bool) : string :=
  if b then "true" else "false".

(** [xs.slice(0, n)] *)
Definition slice0 {A : Type} (n : nat) (xs : list A) : list A := firstn n xs.

End Js.

(** ** The validation schema (zod) *)

Module Zod.

Inductive IssueCode : Type :=
| invalid_type
| too_small
| too_big
| invalid_enum_value.

(** One issue: the field it is attached to, its kind, and the message
    when the schema gives one ([None]: the library's default text). *)
Record ZodIssue : Type := mkIssue {
  path : string;
  code : IssueCode;
  message : option string
}.

Definition parsed (T : Type) : Type := (list ZodIssue + T)%type.

Definition issues {T : Type} (p : parsed T) : list ZodIssue :=
  match p with
  | inl l => l
  | inr _ => []
  end.

(** [z.string().min(1, msg)] *)
Definition string_min1 (msg : string) (field : string) (v : Js.value)
  : parsed string :=
  match v with
  | Js.Str s =>
      if (Z.of_nat (String.length s) <? 1)
      then inl [mkIssue field too_small (Some msg)]
      else inr s
  | _ => inl [mkIssue field invalid_type None]
  end.

(** [z.number().min(lo).max(hi)]: [NaN] is not accepted as a number;
    both bounds are checked. *)
Definition number_min_max (lo hi : Z) (field : string) (v : Js.value)
  : parsed Z :=
  match v with
  | Js.Num z =>
      match ((if z <? lo then [mkIssue field too_small None] else [])
             ++ (if hi <? z then [mkIssue field too_big None] else []))%list
      with
      | [] => inr z
      | l => inl l
      end
  | _ => inl [mkIssue field invalid_type None]
  end.

(** [z.string().optional()] *)
Definition string_optional (field : string) (v : Js.value)
  : parsed (option string) :=
  match v with
  | Js.Undefined => inr None
  | Js.Str s => inr (Some s)
  | _ => inl [mkIssue field invalid_type None]
  end.

(** [z.boolean().default(d)] *)
Definition boolean_default (d : bool) (field : string) (v : Js.value)
  : parsed bool :=
  match v with
  | Js.Undefined => inr d
  | Js.Bool b => inr b
  | _ => inl [mkIssue field invalid_type None]
  end.

Definition has_issue_at (field : string) (l : list ZodIssue) : Prop :=
  exists i, In i l /\ path i = field.

End Zod.

(** ** Artwork submissions *)

Inductive Availability : Type :=
| available
| sold
| not_for_sale.

Definition Availability_string (a : Availability) : string :=
  match a with
  | available => "available"
  | sold => "sold"
  | not_for_sale => "not-for-sale"
  end.

(** [z.enum(["available", "sold", "not-for-sale"])] *)
Definition availability_enum (field : string) (v : Js.value)
  : Zod.parsed Availability :=
  match v with
  | Js.Str s =>
      if (s =? "available")%string then inr available
      else if (s =? "sold")%string then inr sold
      else if (s =? "not-for-sale")%string then inr not_for_sale
      else inl [Zod.mkIssue field Zod.invalid_enum_value None]
  | _ => inl [Zod.mkIssue field Zod.invalid_type None]
  end.

(** What the form holds for each field before validation. *)
Record FormValues : Type := mkFormValues {
  f_title : Js.value;
  f_year : Js.value;
  f_medium : Js.value;
  f_size : Js.value;
  f_description : Js.value;
  f_availability : Js.value;
  f_tags : Js.value;
  f_featured : Js.value
}.

(** [ArtworkUploadData = z.infer<typeof artworkUploadSchema>] *)
Record ArtworkUploadData : Type := mkData {
  title : string;
  year : Z;
  medium : string;
  size : string;
  description : option string;
  availability : Availability;
  tags : option string;
  featured : bool
}.

(** The issues of all fields, in the order of the schema. *)
Definition all_issues (v : FormValues) : list Zod.ZodIssue :=
  (Zod.issues (Zod.string_min1 "Title is required" "title" (f_title v))
   ++ Zod.issues (Zod.number_min_max 1900 2030 "year" (f_year v))
   ++ Zod.issues (Zod.string_min1 "Medium is required" "medium" (f_medium v))
   ++ Zod.issues (Zod.string_min1 "Size is required" "size" (f_size v))
   ++ Zod.issues (Zod.string_optional "description" (f_description v))
   ++ Zod.issues (availability_enum "availability" (f_availability v))
   ++ Zod.issues (Zod.string_optional "tags" (f_tags v))
   ++ Zod.issues (Zod.boolean_default false "featured" (f_featured v)))%list.

(** [artworkUploadSchema]: every field is parsed, the issues of all fields
    are collected in the order of the schema's keys, and the normalized
    record is produced when there is none. *)
Definition artworkUploadSchema (v : FormValues) : Zod.parsed ArtworkUploadData :=
  let p_title := Zod.string_min1 "Title is required" "title" (f_title v) in
  let p_year := Zod.number_min_max 1900 2030 "year" (f_year v) in
  let p_medium := Zod.string_min1 "Medium is required" "medium" (f_medium v) in
  let p_size := Zod.string_min1 "Size is required" "size" (f_size v) in
  let p_description := Zod.string_optional "description" (f_description v) in
  let p_availability := availability_enum "availability" (f_availability v) in
  let p_tags := Zod.string_optional "tags" (f_tags v) in
  let p_featured := Zod.boolean_default false "featured" (f_featured v) in
  match p_title, p_year, p_medium, p_size,
        p_description, p_availability, p_tags, p_featured with
  | inr t, inr y, inr m, inr s, inr d, inr a, inr g, inr f =>
      inr (mkData t y m s d a g f)
  | _, _, _, _, _, _, _, _ =>
      inl (all_issues v)
  end.

(** ** Files, toasts, requests *)

Module File.
(** The part of a browser [File] the form reads. *)
Record t : Type := mk {
  name : string;
  size : Z;
  type : string
}.
End File.

Module Toast.
Inductive Variant : Type :=
| default
| destructive.

Record t : Type := mk {
  title : string;
  description : string;
  variant : Variant
}.
End Toast.

(** A multipart body: the entries in the order they were appended. *)
Inductive FormDataEntry : Type :=
| Blob (f : File.t)
| Text (s : string).

Definition FormData : Type := list (string * FormDataEntry).

Definition append (fd : FormData) (k : string) (v : FormDataEntry) : FormData :=
  (fd ++ [(k, v)])%list.

Record Request : Type := mkRequest {
  url : string;
  method : string;
  body : FormData;
  credentials : string
}.

(** What [error.message] reads on a parsed JSON body that is not [null],
    by what the form does with it, [new Error(error.message || d)]:
    nothing ([undefined]: an object without the key, or a body that is a
    string, a number, a boolean or an array), a JSON string, or any other
    JSON value (null, a boolean, a number, an array, an object), given by
    its truthiness and by the message the constructed error ends with
    (the value's string conversion, or the TypeError's message when the
    conversion fails). *)
Inductive MessageValue : Type :=
| NoMessage
| TextMessage (s : string)
| OtherMessage (truthy : bool) (shown : string).

(** A parsed JSON body: [null], with the message of the TypeError that
    reading a property of it throws (the text is the engine's), or any
    other value, with what its [message] property reads. *)
Inductive Body : Type :=
| NullBody (type_error : string)
| ValueBody (message : MessageValue).

(** The message of [new Error(m || d)]. *)
Definition Error_message_or (m : MessageValue) (d : string) : string :=
  match m with
  | NoMessage => d
  | TextMessage s => if Js.truthy s then s else d
  | OtherMessage truthy shown => if truthy then shown else d
  end.

(** A response: its [ok] flag and what [response.json()] settles to, the
    parsed body or the message of the error it rejects with. *)
Record Response : Type := mkResponse {
  ok : bool;
  json : (string + Body)%type
}.

Inductive Effect : Type :=
| EToast (t : Toast.t)
| EFetch (r : Request)
| EInvalidateQueries (queryKey : list string).

Definition has_field (k : string) (fd : FormData) : Prop :=
  exists v, In (k, v) fd.

Definition networkCalls (l : list Effect) : list Request :=
  flat_map (fun e => match e with EFetch r => [r] | _ => [] end) l.

Definition invalidations (l : list Effect) : list (list string) :=
  flat_map (fun e => match e with EInvalidateQueries k => [k] | _ => [] end) l.

Definition toasts (l : list Effect) : list Toast.t :=
  flat_map (fun e => match e with EToast t => [t] | _ => [] end) l.

(** ** The upload form: state and handlers *)

Record State : Type := mkState {
  selectedFile : option File.t;
  dragOver : bool;
  formValues : FormValues;
  formErrors : list Zod.ZodIssue;
  isPending : bool
}.

(** Handlers run over the component state and log their effects. *)
Module Handler.

Definition t (A : Type) : Type := State -> A * State * list Effect.

Definition ret {A : Type} (a : A) : t A := fun st => (a, st, []).

Definition bind {A B : Type} (c : t A) (k : A -> t B) : t B :=
  fun st =>
    let '(a, st1, e1) := c st in
    let '(b, st2, e2) := k a st1 in
    (b, st2, (e1 ++ e2)%list).

Definition get : t State := fun st => (st, st, []).
Definition modify (f : State -> State) : t unit := fun st => (tt, f st, []).
Definition emit (e : Effect) : t unit := fun st => (tt, st, [e]).

Definition run {A : Type} (c : t A) (st : State) : State * list Effect :=
  let '(_, st', e) := c st in (st', e).

End Handler.

Declare Scope handler_scope.
Delimit Scope handler_scope with handler.
Notation "x <- c ;; k" := (Handler.bind c (fun x => k))
  (at level 61, c at next level, right associativity) : handler_scope.
Notation "c ;; k" := (Handler.bind c (fun _ => k))
  (at level 61, right associativity) : handler_scope.
Local Open Scope handler_scope.

Definition toast (t : Toast.t) : Handler.t unit := Handler.emit (EToast t).

Definition setSelectedFile (o : option File.t) : Handler.t unit :=
  Handler.modify (fun st =>
    mkState o (dragOver st) (formValues st) (formErrors st) (isPending st)).

Definition setDragOver (b : bool) : Handler.t unit :=
  Handler.modify (fun st =>
    mkState (selectedFile st) b (formValues st) (formErrors st) (isPending st)).

Definition setFormValues (v : FormValues) : Handler.t unit :=
  Handler.modify (fun st =>
    mkState (selectedFile st) (dragOver st) v (formErrors st) (isPending st)).

Definition setFormErrors (l : list Zod.ZodIssue) : Handler.t unit :=
  Handler.modify (fun st =>
    mkState (selectedFile st) (dragOver st) (formValues st) l (isPending st)).

Definition setPending (b : bool) : Handler.t unit :=
  Handler.modify (fun st =>
    mkState (selectedFile st) (dragOver st) (formValues st) (formErrors st) b).

Definition invalidateQueries (queryKey : list string) : Handler.t unit :=
  Handler.emit (EInvalidateQueries queryKey).

Definition fetch (r : Request) : Handler.t unit := Handler.emit (EFetch r).

(** The toasts of the component. *)
Definition toast_success : Toast.t :=
  Toast.mk "Success!" "Artwork uploaded successfully." Toast.default.
Definition toast_upload_failed (msg : string) : Toast.t :=
  Toast.mk "Upload failed" msg Toast.destructive.
Definition toast_image_required : Toast.t :=
  Toast.mk "Image required" "Please select an image file." Toast.destructive.
Definition toast_file_too_large : Toast.t :=
  Toast.mk "File too large" "Please select an image smaller than 10MB."
           Toast.destructive.
Definition toast_invalid_file_type : Toast.t :=
  Toast.mk "Invalid file type" "Please select an image file." Toast.destructive.

(** The error kinds of the upload workflow and the toast that reports each. *)
Inductive UploadFormError : Type :=
| MissingImage
| FileTooLarge
| InvalidFileType
| UploadError (msg : string).

Definition report (e : UploadFormError) : Toast.t :=
  match e with
  | MissingImage => toast_image_required
  | FileTooLarge => toast_file_too_large
  | InvalidFileType => toast_invalid_file_type
  | UploadError msg => toast_upload_failed msg
  end.

(** 10 MiB, in bytes. *)
Definition ten_MiB : Z := 10485760.

Section ArtworkUpload.

(** [new Date().getFullYear()] when the form is created. *)
Variable thisYear : Z.

Definition defaultValues : FormValues :=
  mkFormValues (Js.Str "") (Js.Num thisYear) (Js.Str "") (Js.Str "")
               (Js.Str "") (Js.Str "available") (Js.Str "") (Js.Bool false).

Definition initialState : State :=
  mkState None false defaultValues [] false.

(** [form.reset()]: values back to the defaults, errors cleared. *)
Definition form_reset : Handler.t unit :=
  setFormValues defaultValues ;; setFormErrors [].

(** [mutationFn], up to its [await fetch(...)]: the multipart body. *)
Definition mutationFn_formData (data : ArtworkUploadData) (image : File.t)
  : FormData :=
  let formData : FormData := [] in
  let formData := append formData "image" (Blob image) in
  let formData := append formData "title" (Text (title data)) in
  let formData := append formData "year" (Text (Js.Number_toString (year data))) in
  let formData := append formData "medium" (Text (medium data)) in
  let formData := append formData "size" (Text (size data)) in
  let formData :=
    match description data with
    | Some d => if Js.truthy d then append formData "description" (Text d)
                else formData
    | None => formData
    end in
  let formData :=
    append formData "availability" (Text (Availability_string (availability data))) in
  let formData :=
    match tags data with
    | Some g => if Js.truthy g then append formData "tags" (Text g)
                else formData
    | None => formData
    end in
  append formData "featured" (Text (Js.Boolean_toString (featured data))).

Definition mutationFn_request (data : ArtworkUploadData) (image : File.t)
  : Request :=
  mkRequest "/api/admin/paintings" "POST" (mutationFn_formData data image)
            "include".

(** [mutationFn], from the response on: the error it throws ([inl]) or
    the body it returns ([inr]). *)
Definition mutationFn_resume (response : Response) : (string + Body)%type :=
  if negb (ok response) then
    match json response with
    | inl parse_error => inl parse_error
    | inr (NullBody type_error) => inl type_error
    | inr (ValueBody message) => inl (Error_message_or message "Upload failed")
    end
  else json response.

Definition onSuccess : Handler.t unit :=
  toast toast_success ;;
  form_reset ;;
  setSelectedFile None ;;
  invalidateQueries ["/api/paintings"].

Definition onError (error_message : string) : Handler.t unit :=
  toast (toast_upload_failed error_message).

(** [uploadMutation.mutate(variables)]: the mutation becomes pending and
    [mutationFn] runs up to its request. *)
Definition uploadMutation_mutate (data : ArtworkUploadData) (image : File.t)
  : Handler.t unit :=
  setPending true ;;
  fetch (mutationFn_request data image).

(** The callbacks of a mutation whose response arrived. *)
Definition uploadMutation_callbacks (response : Response) : Handler.t unit :=
  match mutationFn_resume response with
  | inl error_message => onError error_message
  | inr _ => onSuccess
  end.

(** The response of the pending mutation arrives. *)
Definition uploadMutation_settle (response : Response) : Handler.t unit :=
  setPending false ;;
  uploadMutation_callbacks response.

Definition onSubmit (data : ArtworkUploadData) : Handler.t unit :=
  st <- Handler.get ;;
  match selectedFile st with
  | None => toast toast_image_required
  | Some image => uploadMutation_mutate data image
  end.

(** [form.handleSubmit(onValid)]: the resolver validates the current
    values; with issues they become the form's errors and [onValid] is
    not called, otherwise the errors are cleared and [onValid] receives
    the parsed data. *)
Definition handleSubmit (onValid : ArtworkUploadData -> Handler.t unit)
  : Handler.t unit :=
  st <- Handler.get ;;
  match artworkUploadSchema (formValues st) with
  | inl errs => setFormErrors errs
  | inr data => setFormErrors [] ;; onValid data
  end.

(** The form's [onSubmit] attribute. *)
Definition submit : Handler.t unit := handleSubmit onSubmit.

Definition handleFileSelect (file : File.t) : Handler.t unit :=
  if File.size file >? 10 * 1024 * 1024 then
    toast toast_file_too_large
  else if negb (Js.startsWith (File.type file) "image/") then
    toast toast_invalid_file_type
  else
    setSelectedFile (Some file).

Definition handleDrop (files : list File.t) : Handler.t unit :=
  setDragOver false ;;
  match files with
  | file :: _ => handleFileSelect file
  | [] => Handler.ret tt
  end.

Definition handleFileInput (files : option (list File.t)) : Handler.t unit :=
  match files with
  | Some (file :: _) => handleFileSelect file
  | _ => Handler.ret tt
  end.

End ArtworkUpload.

(** ** The upload form as a machine driven by browser events *)

Section UploadMachine.

Variable thisYear : Z.

(** [disabled={uploadMutation.isPending}], as a render computes it. *)
Definition submitButton_disabled (st : State) : bool := isPending st.

(** The year input is [type="number" min={1900} max={2030}] in a form
    without [noValidate]: when it shows a number outside that range the
    browser cancels a submit gesture before the submit event, and so
    before [handleSubmit].  The input shows the form's year, which its
    handler takes from [parseInt]: a number, or [NaN], for which the input
    is empty; an empty input that is not required is valid, and so is
    taken any value that is not a number.  No other control of the form
    carries a constraint. *)
Definition yearInput_valid (v : FormValues) : bool :=
  match f_year v with
  | Js.Num z => (1900 <=? z) && (z <=? 2030)
  | _ => true
  end.

(** The form; the [disabled] attribute the submit button has in the
    document, which is the one of the last render; the requests that were
    sent and not yet answered (newest first); and every effect so far
    (oldest first). *)
Record World : Type := mkWorld {
  ui : State;
  buttonDisabled : bool;
  inFlight : list Request;
  log : list Effect
}.

Inductive Event : Type :=
| FieldChange (v : FormValues)
| Drop (files : list File.t)
| FileInput (files : option (list File.t))
| DragOver
| DragLeave
| SubmitGesture
| Render
| ResponseArrives (i : nat) (response : Response).

Definition initialWorld : World :=
  mkWorld (initialState thisYear)
          (submitButton_disabled (initialState thisYear)) [] [].

Definition handle (h : Handler.t unit) (w : World) : World :=
  let '(st, effs) := Handler.run h (ui w) in
  mkWorld st (buttonDisabled w) (rev (networkCalls effs) ++ inFlight w)%list
          (log w ++ effs)%list.

Fixpoint remove_nth {A : Type} (i : nat) (l : list A) : list A :=
  match i, l with
  | _, [] => []
  | O, _ :: l' => l'
  | S i', x :: l' => x :: remove_nth i' l'
  end.

(** One event.  A handler changes the state at once, but the document
    follows only at the next [Render]: until then the submit button keeps
    the [disabled] attribute of the previous render.  A submit gesture
    (a click on the button, or the implicit submission from a text field)
    does nothing on a disabled button, is cancelled by the browser when the
    year input is out of range, and otherwise runs the form's [onSubmit]
    attribute, which does not look at the pending flag.  The newest
    mutation is the one [isPending] follows; the callbacks run for an
    older one too. *)
Definition step (w : World) (e : Event) : World :=
  match e with
  | FieldChange v => handle (setFormValues v) w
  | Drop files => handle (handleDrop files) w
  | FileInput files => handle (handleFileInput files) w
  | DragOver => handle (setDragOver true) w
  | DragLeave => handle (setDragOver false) w
  | SubmitGesture =>
      if buttonDisabled w then w
      else if negb (yearInput_valid (formValues (ui w))) then w
      else handle submit w
  | Render =>
      mkWorld (ui w) (submitButton_disabled (ui w)) (inFlight w) (log w)
  | ResponseArrives i response =>
      match nth_error (inFlight w) i with
      | None => w
      | Some _ =>
          let w' := mkWorld (ui w) (buttonDisabled w)
                            (remove_nth i (inFlight w)) (log w) in
          match i with
          | O => handle (uploadMutation_settle thisYear response) w'
          | S _ => handle (uploadMutation_callbacks thisYear response) w'
          end
      end
  end.

Definition run (w : World) (es : list Event) : World := fold_left step es w.

(** Either nothing is in flight and the mutation is not pending, or
    exactly one request is in flight and the mutation is pending. *)
Definition settled_or_single (w : World) : Prop :=
  (inFlight w = [] /\ isPending (ui w) = false)
  \/ (exists r, inFlight w = [r] /\ isPending (ui w) = true).

(** A handler that sends nothing and keeps the pending flag. *)
Definition quiet (h : Handler.t unit) : Prop :=
  forall st,
    networkCalls (snd (Handler.run h st)) = []
    /\ isPending (fst (Handler.run h st)) = isPending st.

(** The document is never behind the state when the user submits: every
    submit gesture comes right after a render. *)
Fixpoint rendered_before_submit (es : list Event) : bool :=
  match es with
  | [] => true
  | SubmitGesture :: _ => false
  | Render :: es' =>
      match es' with
      | SubmitGesture :: es'' => rendered_before_submit es''
      | _ => rendered_before_submit es'
      end
  | _ :: es' => rendered_before_submit es'
  end.

End UploadMachine.

(** ** The admin panel *)

Record Painting : Type := mkPainting {
  p_id : Z;
  p_title : string;
  p_year : Z;
  p_availability : string;
  p_imageUrl : string
}.

Record ContactMessage : Type := mkContactMessage {
  m_id : Z;
  m_name : string;
  m_email : string;
  m_subject : string;
  m_message : string;
  createdAt : Z
}.

Module AdminPanel.

(** The options of a [useQuery] call. *)
Record Query : Type := mkQuery {
  queryKey : list string;
  enabled : bool
}.

(** The two queries of the panel, in the order of the component. *)
Definition queries (isAuthenticated isOpen : bool) : list Query :=
  [ mkQuery ["/api/paintings"] (isAuthenticated && isOpen);
    mkQuery ["/api/admin/messages"] (isAuthenticated && isOpen) ].

(** A query fetches only while it is enabled. *)
Definition fetches (isAuthenticated isOpen : bool) : list (list string) :=
  map queryKey (filter enabled (queries isAuthenticated isOpen)).

(** The listener of the 'openAdminPanel' window event; the result is the
    new value of [isOpen]. *)
Definition handleOpenAdmin (isAuthenticated isOpen : bool) : bool :=
  if isAuthenticated then true else isOpen.

Inductive ArtworksView : Type :=
| NoArtworks (text : string)
| ArtworkRows (rows : list Painting).

Inductive MessagesView : Type :=
| NoMessages (text : string)
| MessageCards (cards : list ContactMessage).

Record Dialog : Type := mkDialog {
  open : bool;
  currentArtworks : ArtworksView;
  recentMessages : MessagesView
}.

Definition renderArtworks (paintings : list Painting) : ArtworksView :=
  if (List.length paintings =? 0)%nat then NoArtworks "No artworks uploaded yet."
  else ArtworkRows (map (fun painting => painting) paintings).

Definition renderMessages (messages : list ContactMessage) : MessagesView :=
  if (List.length messages =? 0)%nat then NoMessages "No messages yet."
  else MessageCards (map (fun message => message) (Js.slice0 5 messages)).

(** What the component returns; [None] is React's [null]. *)
Definition render (isAuthenticated isOpen : bool)
           (paintings : list Painting) (messages : list ContactMessage)
  : option Dialog :=
  if negb isAuthenticated then None
  else Some (mkDialog isOpen (renderArtworks paintings)
                      (renderMessages messages)).

(** The panel over time: the session, the [isOpen] state, and the
    fetches issued so far. *)
Record World : Type := mkWorld {
  isAuthenticated : bool;
  isOpen : bool;
  issued : list (list string)
}.

Inductive Event : Type :=
| AuthChanged (b : bool)
| OpenAdminPanel
| OnOpenChange (b : bool).

(** Every event is followed by a render, which lets the enabled queries
    fetch.  [onOpenChange] comes from the dialog, which exists only
    while the panel renders. *)
Definition step (w : World) (e : Event) : World :=
  let '(a, o) :=
    match e with
    | AuthChanged b => (b, isOpen w)
    | OpenAdminPanel =>
        (isAuthenticated w, handleOpenAdmin (isAuthenticated w) (isOpen w))
    | OnOpenChange b =>
        (isAuthenticated w, if isAuthenticated w then b else isOpen w)
    end in
  mkWorld a o (issued w ++ fetches a o)%list.

Definition initialWorld (auth : bool) : World :=
  mkWorld auth false (fetches auth false).

Definition run (w : World) (es : list Event) : World := fold_left step es w.

End AdminPanel.

(** ** Newest-first order of messages *)

Definition newer_or_equal (a b : ContactMessage) : Prop :=
  createdAt b <= createdAt a.

Fixpoint insertNewestFirst (m : ContactMessage) (l : list ContactMessage)
  : list ContactMessage :=
  match l with
  | [] => [m]
  | x :: l' =>
      if createdAt x <=? createdAt m then m :: l
      else x :: insertNewestFirst m l'
  end.

(** Stable sort by [createdAt], descending. *)
Fixpoint sortNewestFirst (l : list ContactMessage) : list ContactMessage :=
  match l with
  | [] => []
  | m :: l' => insertNewestFirst m (sortNewestFirst l')
  end.

(** The specification's wording of the message preview: the list sorted by
    [createdAt] descending, truncated to its first five. *)
Definition fiveMostRecent (l : list ContactMessage) : list ContactMessage :=
  firstn 5 (sortNewestFirst l).

(** ** Sample inputs *)

Definition big_text_file : File.t := File.mk "notes.txt" 20971520 "text/plain".
Definition small_jpeg : File.t := File.mk "untitled.jpg" 2097152 "image/jpeg".
Definition small_text_file : File.t := File.mk "notes.txt" 1024 "text/plain".

(** The form filled in as: Untitled, 2025, Oil, 50x50, available, with
    description and tags left at their empty default. *)
Definition untitled_values : FormValues :=
  mkFormValues (Js.Str "Untitled") (Js.Num 2025) (Js.Str "Oil")
               (Js.Str "50x50") (Js.Str "") (Js.Str "available") (Js.Str "")
               (Js.Bool false).

Definition untitled_data : ArtworkUploadData :=
  mkData "Untitled" 2025 "Oil" "50x50" (Some "") available (Some "") false.

Definition untitled_state (file : option File.t) : State :=
  mkState file false untitled_values [] false.

Definition with_year (y : Js.value) (v : FormValues) : FormValues :=
  mkFormValues (f_title v) y (f_medium v) (f_size v) (f_description v)
               (f_availability v) (f_tags v) (f_featured v).

Definition with_availability (a : Js.value) (v : FormValues) : FormValues :=
  mkFormValues (f_title v) (f_year v) (f_medium v) (f_size v)
               (f_description v) a (f_tags v) (f_featured v).

(** Only the required fields, filled in. *)
Definition minimal_values : FormValues :=
  mkFormValues (Js.Str "Untitled") (Js.Num 2025) (Js.Str "Oil")
               (Js.Str "50x50") Js.Undefined (Js.Str "available")
               Js.Undefined Js.Undefined.

Definition response_created : Response :=
  mkResponse true (inr (ValueBody NoMessage)).
Definition response_rejected (msg : string) : Response :=
  mkResponse false (inr (ValueBody (TextMessage msg))).
Definition response_no_message : Response :=
  mkResponse false (inr (ValueBody NoMessage)).

Definition message_at (n : Z) : ContactMessage :=
  mkContactMessage n "Ada" "ada@example.org" "Commission" "Hello" n.

(** Six messages, oldest first. *)
Definition oldest_first : list ContactMessage :=
  [message_at 1; message_at 2; message_at 3; message_at 4; message_at 5;
   message_at 6].

(** The same six, newest first. *)
Definition newest_first : list ContactMessage :=
  [message_at 6; message_at 5; message_at 4; message_at 3; message_at 2;
   message_at 1].

(** The user picks a JPEG, fills the form in and submits. *)
Definition submit_once : list Event :=
  [FileInput (Some [small_jpeg]); FieldChange untitled_values; SubmitGesture].

(** ** Predicates and helpers of the further properties *)

(** A file that passes both checks of [handleFileSelect]. *)
Definition acceptable (f : File.t) : Prop :=
  File.size f <= ten_MiB /\ Js.startsWith (File.type f) "image/" = true.

(** A record with the required texts non-empty and the year in range. *)
Definition well_formed (d : ArtworkUploadData) : Prop :=
  title d <> "" /\ 1900 <= year d <= 2030 /\ medium d <> "" /\ size d <> "".

(** The form value of an optional text. *)
Definition of_option (o : option string) : Js.value :=
  match o with
  | None => Js.Undefined
  | Some s => Js.Str s
  end.

Definition set_description (o : option string) (d : ArtworkUploadData)
  : ArtworkUploadData :=
  mkData (title d) (year d) (medium d) (size d) o (availability d) (tags d)
         (featured d).

Definition set_tags (o : option string) (d : ArtworkUploadData)
  : ArtworkUploadData :=
  mkData (title d) (year d) (medium d) (size d) (description d)
         (availability d) o (featured d).

Definition with_dragOver (b : bool) (st : State) : State :=
  mkState (selectedFile st) b (formValues st) (formErrors st) (isPending st).

Definition with_pending (b : bool) (st : State) : State :=
  mkState (selectedFile st) (dragOver st) (formValues st) (formErrors st) b.

Definition is_submit (e : Event) : bool :=
  match e with
  | SubmitGesture => true
  | _ => false
  end.

Definition count_submits (es : list Event) : nat :=
  List.length (filter is_submit es).

(** A form that is idle (nothing in flight, not pending, the button
    enabled), filled in with valid values and holds a file. *)
Definition ready (w : World) (data : ArtworkUploadData) (image : File.t) : Prop :=
  inFlight w = []
  /\ buttonDisabled w = false
  /\ isPending (ui w) = false
  /\ selectedFile (ui w) = Some image
  /\ artworkUploadSchema (formValues (ui w)) = inr data.


Definition response_ok_not_json (parse_error : string) : Response :=
  mkResponse true (inl parse_error).

Definition open_panel : AdminPanel.World := AdminPanel.mkWorld true true [].

(** A handler that stays inside the form: it sends nothing, invalidates
    nothing, and a file it selects is an acceptable one. *)
Definition local (h : Handler.t unit) : Prop :=
  forall st,
    networkCalls (snd (Handler.run h st)) = []
    /\ invalidations (snd (Handler.run h st)) = []
    /\ (forall f, selectedFile (fst (Handler.run h st)) = Some f ->
                  selectedFile st = Some f \/ acceptable f).

(** What one event may do: [w'] extends the log of [w] by effects that
    hold at most [budget] requests, each built from the validated values
    and the selected file of [w]; requests in flight and invalidations are
    paid for by requests sent; a newly selected file is acceptable. *)
Definition accounted (w w' : World) (budget : nat) : Prop :=
  exists effs,
    log w' = (log w ++ effs)%list
    /\ (List.length (inFlight w') + List.length (invalidations effs)
        <= List.length (inFlight w) + List.length (networkCalls effs))%nat
    /\ (List.length (networkCalls effs) <= budget)%nat
    /\ (forall r, In r (networkCalls effs) ->
                  exists data image,
                    r = mutationFn_request data image
                    /\ selectedFile (ui w) = Some image
                    /\ artworkUploadSchema (formValues (ui w)) = inr data)
    /\ (forall f, selectedFile (ui w') = Some f ->
                  selectedFile (ui w) = Some f \/ acceptable f).

(** Every request is a POST of a well-formed record and an acceptable
    image to the upload endpoint. *)
Definition valid_request (r : Request) : Prop :=
  exists data image,
    r = mutationFn_request data image
    /\ well_formed data
    /\ acceptable image.

(** * Properties *)

(** ** Running handlers *)

Create HintDb handlers.
#[local] Hint Unfold Handler.run Handler.bind Handler.get Handler.modify
  Handler.emit Handler.ret toast fetch invalidateQueries setSelectedFile
  setDragOver setFormValues setFormErrors setPending : handlers.

Ltac run_handlers := autounfold with handlers in *; cbn in *.

Lemma ten_MiB_eq : 10 * 1024 * 1024 = ten_MiB.
Proof. reflexivity. Qed.

Example Number_toString_2025 : Js.Number_toString 2025 = "2025".
Proof. reflexivity. Qed.

Example startsWith_image_jpeg : Js.startsWith "image/jpeg" "image/" = true.
Proof. reflexivity. Qed.

Example startsWith_text_plain : Js.startsWith "text/plain" "image/" = false.
Proof. reflexivity. Qed.

Example schema_accepts_untitled :
  artworkUploadSchema untitled_values = inr untitled_data.
Proof. reflexivity. Qed.

Example schema_rejects_defaults :
  artworkUploadSchema (defaultValues 2025)
  = inl [Zod.mkIssue "title" Zod.too_small (Some "Title is required");
         Zod.mkIssue "medium" Zod.too_small (Some "Medium is required");
         Zod.mkIssue "size" Zod.too_small (Some "Size is required")].
Proof. reflexivity. Qed.

Example resume_no_message :
  mutationFn_resume response_no_message = inl "Upload failed".
Proof. reflexivity. Qed.

Lemma run_onSubmit_no_file (data : ArtworkUploadData) (st : State) :
  selectedFile st = None ->
  Handler.run (onSubmit data) st = (st, [EToast toast_image_required]).
Proof.
  intros Hnone. unfold onSubmit. run_handlers. rewrite Hnone. reflexivity.
Qed.

Lemma run_onSubmit_file (data : ArtworkUploadData) (st : State) (image : File.t) :
  selectedFile st = Some image ->
  Handler.run (onSubmit data) st =
  (mkState (Some image) (dragOver st) (formValues st) (formErrors st) true,
   [EFetch (mutationFn_request data image)]).
Proof.
  intros Hsome. unfold onSubmit, uploadMutation_mutate. run_handlers.
  rewrite Hsome. cbn. rewrite Hsome. reflexivity.
Qed.

Lemma run_submit_invalid (st : State) (errs : list Zod.ZodIssue) :
  artworkUploadSchema (formValues st) = inl errs ->
  Handler.run submit st =
  (mkState (selectedFile st) (dragOver st) (formValues st) errs (isPending st),
   []).
Proof.
  intros Hv. unfold submit, handleSubmit. run_handlers. rewrite Hv. reflexivity.
Qed.

Lemma run_submit_valid (st : State) (data : ArtworkUploadData) :
  artworkUploadSchema (formValues st) = inr data ->
  Handler.run submit st =
  Handler.run (onSubmit data)
    (mkState (selectedFile st) (dragOver st) (formValues st) [] (isPending st)).
Proof.
  intros Hv. unfold submit, handleSubmit. run_handlers. rewrite Hv. cbn.
  destruct (selectedFile st); reflexivity.
Qed.

Lemma run_handleFileSelect (file : File.t) (st : State) :
  Handler.run (handleFileSelect file) st =
  if ten_MiB <? File.size file then (st, [EToast toast_file_too_large])
  else if Js.startsWith (File.type file) "image/"
       then (mkState (Some file) (dragOver st) (formValues st) (formErrors st)
                     (isPending st), [])
       else (st, [EToast toast_invalid_file_type]).
Proof.
  unfold handleFileSelect. rewrite ten_MiB_eq, Z.gtb_ltb.
  destruct (ten_MiB <? File.size file); [reflexivity|].
  destruct (Js.startsWith (File.type file) "image/"); reflexivity.
Qed.

(** ** File selection *)

(** C10. A file that is both larger than 10 MiB and not of an image type is
    rejected with FileTooLarge, not with InvalidFileType: the size is
    checked first.  The selected file and the rest of the state stay as
    they were. *)
Theorem handleFileSelect_size_checked_first (file : File.t) (st : State) :
  File.size file > ten_MiB ->
  Js.startsWith (File.type file) "image/" = false ->
  Handler.run (handleFileSelect file) st = (st, [EToast (report FileTooLarge)])
  /\ report FileTooLarge <> report InvalidFileType.
Proof.
  intros Hsize _. split; [|discriminate].
  rewrite run_handleFileSelect.
  replace (ten_MiB <? File.size file) with true by (symmetry; apply Z.ltb_lt; lia).
  reflexivity.
Qed.

Lemma handleFileSelect_size_checked_first_witness :
  Handler.run (handleFileSelect big_text_file) (initialState 2025)
  = (initialState 2025, [EToast (report FileTooLarge)])
  /\ report FileTooLarge <> report InvalidFileType.
Proof.
  apply (handleFileSelect_size_checked_first big_text_file (initialState 2025)).
  - reflexivity.
  - reflexivity.
Defined.

(** C2, as stated, fails: a file whose type is not an image type is not
    always rejected with InvalidFileType.  A 20 MiB text file is rejected
    with FileTooLarge. *)
Lemma handleFileSelect_invalid_type_counterexample :
  ~ (forall (file : File.t) (st : State),
        Js.startsWith (File.type file) "image/" = false ->
        Handler.run (handleFileSelect file) st
        = (st, [EToast (report InvalidFileType)])).
Proof.
  intros H.
  specialize (H big_text_file (initialState 2025) eq_refl).
  vm_compute in H. discriminate H.
Qed.

(** C2, amended.  A file larger than 10 MiB is rejected with FileTooLarge;
    a file of at most 10 MiB whose type does not start with image/ is
    rejected with InvalidFileType; a file whose type does not start with
    image/ is rejected in any case; every rejection leaves the selected
    file (and the whole state) unchanged and shows exactly one toast; a
    file that meets both constraints replaces the selected file. *)
Theorem handleFileSelect_spec (file : File.t) (st : State) :
  (File.size file > ten_MiB ->
     Handler.run (handleFileSelect file) st
     = (st, [EToast (report FileTooLarge)]))
  /\ (File.size file <= ten_MiB ->
      Js.startsWith (File.type file) "image/" = false ->
      Handler.run (handleFileSelect file) st
      = (st, [EToast (report InvalidFileType)]))
  /\ (Js.startsWith (File.type file) "image/" = false ->
      exists e, (e = FileTooLarge \/ e = InvalidFileType)
                /\ Handler.run (handleFileSelect file) st
                   = (st, [EToast (report e)]))
  /\ (File.size file <= ten_MiB ->
      Js.startsWith (File.type file) "image/" = true ->
      exists st',
        Handler.run (handleFileSelect file) st = (st', [])
        /\ selectedFile st' = Some file
        /\ formValues st' = formValues st
        /\ isPending st' = isPending st).
Proof.
  rewrite run_handleFileSelect.
  destruct (ten_MiB <? File.size file) eqn:Hsz;
    [apply Z.ltb_lt in Hsz | apply Z.ltb_ge in Hsz].
  - repeat split; try (intros; lia); try reflexivity.
    intros _. exists FileTooLarge. split; [left|]; reflexivity.
  - destruct (Js.startsWith (File.type file) "image/") eqn:Hty.
    + repeat split; try (intros; lia); try discriminate.
      intros _ _. eexists. split; [reflexivity|]. repeat split.
    + repeat split; try (intros; lia); try discriminate; try reflexivity.
      intros _. exists InvalidFileType. split; [right|]; reflexivity.
Qed.

Lemma handleFileSelect_spec_witness :
  Handler.run (handleFileSelect big_text_file) (initialState 2025)
  = (initialState 2025, [EToast (report FileTooLarge)])
  /\ Handler.run (handleFileSelect small_text_file) (initialState 2025)
     = (initialState 2025, [EToast (report InvalidFileType)])
  /\ (exists e, (e = FileTooLarge \/ e = InvalidFileType)
                /\ Handler.run (handleFileSelect big_text_file) (initialState 2025)
                   = (initialState 2025, [EToast (report e)]))
  /\ (exists st',
        Handler.run (handleFileSelect small_jpeg) (initialState 2025) = (st', [])
        /\ selectedFile st' = Some small_jpeg
        /\ formValues st' = formValues (initialState 2025)
        /\ isPending st' = isPending (initialState 2025)).
Proof.
  split; [|split; [|split]].
  - apply (proj1 (handleFileSelect_spec big_text_file (initialState 2025))).
    reflexivity.
  - apply (proj1 (proj2 (handleFileSelect_spec small_text_file (initialState 2025)))).
    + discriminate.
    + reflexivity.
  - apply (proj1 (proj2 (proj2
        (handleFileSelect_spec big_text_file (initialState 2025))))).
    reflexivity.
  - apply (proj2 (proj2 (proj2
        (handleFileSelect_spec small_jpeg (initialState 2025))))).
    + discriminate.
    + reflexivity.
Defined.

(** ** Validation *)

Lemma artworkUploadSchema_cases (v : FormValues) :
  artworkUploadSchema v = inl (all_issues v)
  \/ exists data,
      artworkUploadSchema v = inr data
      /\ Zod.string_min1 "Title is required" "title" (f_title v) = inr (title data)
      /\ Zod.number_min_max 1900 2030 "year" (f_year v) = inr (year data)
      /\ Zod.string_min1 "Medium is required" "medium" (f_medium v) = inr (medium data)
      /\ Zod.string_min1 "Size is required" "size" (f_size v) = inr (size data)
      /\ Zod.string_optional "description" (f_description v) = inr (description data)
      /\ availability_enum "availability" (f_availability v) = inr (availability data)
      /\ Zod.string_optional "tags" (f_tags v) = inr (tags data)
      /\ Zod.boolean_default false "featured" (f_featured v) = inr (featured data).
Proof.
  unfold artworkUploadSchema, all_issues.
  destruct (Zod.string_min1 "Title is required" "title" (f_title v));
    [left; reflexivity|].
  destruct (Zod.number_min_max 1900 2030 "year" (f_year v));
    [left; reflexivity|].
  destruct (Zod.string_min1 "Medium is required" "medium" (f_medium v));
    [left; reflexivity|].
  destruct (Zod.string_min1 "Size is required" "size" (f_size v));
    [left; reflexivity|].
  destruct (Zod.string_optional "description" (f_description v));
    [left; reflexivity|].
  destruct (availability_enum "availability" (f_availability v));
    [left; reflexivity|].
  destruct (Zod.string_optional "tags" (f_tags v));
    [left; reflexivity|].
  destruct (Zod.boolean_default false "featured" (f_featured v));
    [left; reflexivity|].
  right. eexists. split; [reflexivity|]. cbn. repeat split.
Qed.

Lemma has_issue_at_app_l (field : string) (l1 l2 : list Zod.ZodIssue) :
  Zod.has_issue_at field l1 -> Zod.has_issue_at field (l1 ++ l2).
Proof.
  intros [i [Hin Hp]]. exists i. split; [apply in_or_app; left|]; assumption.
Qed.

Lemma has_issue_at_app_r (field : string) (l1 l2 : list Zod.ZodIssue) :
  Zod.has_issue_at field l2 -> Zod.has_issue_at field (l1 ++ l2).
Proof.
  intros [i [Hin Hp]]. exists i. split; [apply in_or_app; right|]; assumption.
Qed.

Lemma has_issue_at_head (field : string) (i : Zod.ZodIssue) (l : list Zod.ZodIssue) :
  Zod.path i = field -> Zod.has_issue_at field (i :: l).
Proof. intros Hp. exists i. split; [left; reflexivity | assumption]. Qed.

Lemma string_min1_empty (msg field : string) :
  Zod.string_min1 msg field (Js.Str "")
  = inl [Zod.mkIssue field Zod.too_small (Some msg)].
Proof. reflexivity. Qed.

Lemma string_min1_nonempty (msg field s : string) :
  s <> "" -> Zod.string_min1 msg field (Js.Str s) = inr s.
Proof.
  intros Hs. destruct s as [|c s']; [congruence|].
  unfold Zod.string_min1.
  replace (Z.of_nat (String.length (String c s')) <? 1) with false; [reflexivity|].
  symmetry. apply Z.ltb_ge. cbn [String.length]. lia.
Qed.

Lemma number_min_max_in_range (lo hi z : Z) (field : string) :
  lo <= z <= hi -> Zod.number_min_max lo hi field (Js.Num z) = inr z.
Proof.
  intros [Hlo Hhi]. unfold Zod.number_min_max.
  replace (z <? lo) with false by (symmetry; apply Z.ltb_ge; lia).
  replace (hi <? z) with false by (symmetry; apply Z.ltb_ge; lia).
  reflexivity.
Qed.

Lemma number_min_max_fails (lo hi : Z) (field : string) (v : Js.value) :
  (forall z, v = Js.Num z -> z < lo \/ hi < z) ->
  exists l, Zod.number_min_max lo hi field v = inl l /\ Zod.has_issue_at field l.
Proof.
  intros Hv. unfold Zod.number_min_max.
  destruct v as [| |b|z| |s];
    try (eexists; split; [reflexivity|]; apply has_issue_at_head; reflexivity).
  destruct (z <? lo) eqn:Hlo.
  - cbn. eexists; split; [reflexivity|]. apply has_issue_at_head. reflexivity.
  - destruct (hi <? z) eqn:Hhi.
    + cbn. eexists; split; [reflexivity|]. apply has_issue_at_head. reflexivity.
    + apply Z.ltb_ge in Hlo, Hhi. destruct (Hv z eq_refl); lia.
Qed.

Lemma availability_enum_ok (field : string) (a : Availability) :
  availability_enum field (Js.Str (Availability_string a)) = inr a.
Proof. destruct a; reflexivity. Qed.

Lemma availability_enum_fails (field : string) (v : Js.value) :
  v <> Js.Str "available" -> v <> Js.Str "sold" -> v <> Js.Str "not-for-sale" ->
  exists l, availability_enum field v = inl l /\ Zod.has_issue_at field l.
Proof.
  intros H1 H2 H3. unfold availability_enum.
  destruct v as [| |b|z| |s];
    try (eexists; split; [reflexivity|]; apply has_issue_at_head; reflexivity).
  destruct (String.eqb_spec s "available"); [subst; congruence|].
  destruct (String.eqb_spec s "sold"); [subst; congruence|].
  destruct (String.eqb_spec s "not-for-sale"); [subst; congruence|].
  eexists; split; [reflexivity|]. apply has_issue_at_head. reflexivity.
Qed.

(** A field whose parser fails makes the whole schema fail. *)
Ltac schema_fails v :=
  destruct (artworkUploadSchema_cases v) as [Hs | [data [_ Hok]]];
  [ exists (all_issues v); split; [exact Hs|]
  | decompose [and] Hok; congruence ].

(** C6. A year that is not a number, or a number outside [1900, 2030],
    fails validation with an issue on the year field; so do an empty title,
    medium or size, and an availability that is not one of the three
    values, each with an issue on its field.  Whenever validation fails,
    submit records the issues and issues no network call (no effect at
    all).  With description, tags and featured absent and the other fields
    valid, validation passes and featured is false. *)
Theorem artworkUploadSchema_validation (v : FormValues) :
  ((forall z, f_year v = Js.Num z -> z < 1900 \/ 2030 < z) ->
     exists errs, artworkUploadSchema v = inl errs
                  /\ Zod.has_issue_at "year" errs)
  /\ (f_title v = Js.Str "" ->
      exists errs, artworkUploadSchema v = inl errs
                   /\ Zod.has_issue_at "title" errs)
  /\ (f_medium v = Js.Str "" ->
      exists errs, artworkUploadSchema v = inl errs
                   /\ Zod.has_issue_at "medium" errs)
  /\ (f_size v = Js.Str "" ->
      exists errs, artworkUploadSchema v = inl errs
                   /\ Zod.has_issue_at "size" errs)
  /\ (f_availability v <> Js.Str "available" ->
      f_availability v <> Js.Str "sold" ->
      f_availability v <> Js.Str "not-for-sale" ->
      exists errs, artworkUploadSchema v = inl errs
                   /\ Zod.has_issue_at "availability" errs)
  /\ (forall (st : State) (errs : list Zod.ZodIssue),
        formValues st = v ->
        artworkUploadSchema v = inl errs ->
        exists st',
          Handler.run submit st = (st', [])
          /\ networkCalls (snd (Handler.run submit st)) = []
          /\ formErrors st' = errs
          /\ formValues st' = v
          /\ selectedFile st' = selectedFile st)
  /\ (forall (t m s : string) (y : Z) (a : Availability),
        v = mkFormValues (Js.Str t) (Js.Num y) (Js.Str m) (Js.Str s)
                         Js.Undefined (Js.Str (Availability_string a))
                         Js.Undefined Js.Undefined ->
        t <> "" -> m <> "" -> s <> "" -> 1900 <= y <= 2030 ->
        artworkUploadSchema v = inr (mkData t y m s None a None false)).
Proof.
  repeat apply conj.
  - intros Hy.
    destruct (number_min_max_fails 1900 2030 "year" (f_year v) Hy) as [l [Hl Hi]].
    schema_fails v. unfold all_issues. rewrite Hl.
    apply has_issue_at_app_r, has_issue_at_app_l. exact Hi.
  - intros Ht.
    assert (Hl := string_min1_empty "Title is required" "title").
    rewrite <- Ht in Hl.
    schema_fails v. unfold all_issues. rewrite Hl.
    apply has_issue_at_app_l, has_issue_at_head. reflexivity.
  - intros Hm.
    assert (Hl := string_min1_empty "Medium is required" "medium").
    rewrite <- Hm in Hl.
    schema_fails v. unfold all_issues. rewrite Hl.
    do 2 apply has_issue_at_app_r.
    apply has_issue_at_app_l, has_issue_at_head. reflexivity.
  - intros Hs'.
    assert (Hl := string_min1_empty "Size is required" "size").
    rewrite <- Hs' in Hl.
    schema_fails v. unfold all_issues. rewrite Hl.
    do 3 apply has_issue_at_app_r.
    apply has_issue_at_app_l, has_issue_at_head. reflexivity.
  - intros H1 H2 H3.
    destruct (availability_enum_fails "availability" (f_availability v) H1 H2 H3)
      as [l [Hl Hi]].
    schema_fails v. unfold all_issues. rewrite Hl.
    do 5 apply has_issue_at_app_r. apply has_issue_at_app_l. exact Hi.
  - intros st errs Hst Hv. subst v.
    rewrite (run_submit_invalid st errs Hv).
    eexists. split; [reflexivity|]. repeat split.
  - intros t m s y a Hv Ht Hm Hs Hy. subst v.
    unfold artworkUploadSchema. cbn [f_title f_year f_medium f_size
      f_description f_availability f_tags f_featured].
    rewrite (string_min1_nonempty _ _ t Ht), (string_min1_nonempty _ _ m Hm),
      (string_min1_nonempty _ _ s Hs), (number_min_max_in_range _ _ y _ Hy),
      availability_enum_ok.
    reflexivity.
Qed.

Lemma artworkUploadSchema_validation_witness :
  (exists errs, artworkUploadSchema (with_year (Js.Num 1850) untitled_values)
                = inl errs /\ Zod.has_issue_at "year" errs)
  /\ (exists errs, artworkUploadSchema (with_year Js.NaN untitled_values)
                   = inl errs /\ Zod.has_issue_at "year" errs)
  /\ (exists errs, artworkUploadSchema (defaultValues 2025) = inl errs
                   /\ Zod.has_issue_at "title" errs)
  /\ (exists errs, artworkUploadSchema (defaultValues 2025) = inl errs
                   /\ Zod.has_issue_at "medium" errs)
  /\ (exists errs, artworkUploadSchema (defaultValues 2025) = inl errs
                   /\ Zod.has_issue_at "size" errs)
  /\ (exists errs,
         artworkUploadSchema (with_availability (Js.Str "reserved") untitled_values)
         = inl errs /\ Zod.has_issue_at "availability" errs)
  /\ (exists st',
         Handler.run submit (initialState 2025) = (st', [])
         /\ networkCalls (snd (Handler.run submit (initialState 2025))) = []
         /\ formErrors st' = all_issues (defaultValues 2025)
         /\ formValues st' = defaultValues 2025
         /\ selectedFile st' = selectedFile (initialState 2025))
  /\ artworkUploadSchema minimal_values
     = inr (mkData "Untitled" 2025 "Oil" "50x50" None available None false).
Proof.
  repeat apply conj.
  - apply (proj1 (artworkUploadSchema_validation
                    (with_year (Js.Num 1850) untitled_values))).
    intros z Hz. inversion Hz. lia.
  - apply (proj1 (artworkUploadSchema_validation
                    (with_year Js.NaN untitled_values))).
    intros z Hz. discriminate Hz.
  - apply (proj1 (proj2 (artworkUploadSchema_validation (defaultValues 2025)))).
    reflexivity.
  - apply (proj1 (proj2 (proj2
      (artworkUploadSchema_validation (defaultValues 2025))))).
    reflexivity.
  - apply (proj1 (proj2 (proj2 (proj2
      (artworkUploadSchema_validation (defaultValues 2025)))))).
    reflexivity.
  - apply (proj1 (proj2 (proj2 (proj2 (proj2
      (artworkUploadSchema_validation
         (with_availability (Js.Str "reserved") untitled_values))))))).
    + discriminate.
    + discriminate.
    + discriminate.
  - apply (proj1 (proj2 (proj2 (proj2 (proj2 (proj2
      (artworkUploadSchema_validation (defaultValues 2025)))))))
      (initialState 2025) (all_issues (defaultValues 2025))).
    + reflexivity.
    + reflexivity.
  - apply (proj2 (proj2 (proj2 (proj2 (proj2 (proj2
      (artworkUploadSchema_validation minimal_values))))))
      "Untitled" "Oil" "50x50" 2025 available).
    + reflexivity.
    + discriminate.
    + discriminate.
    + discriminate.
    + lia.
Defined.

(** ** Submitting *)

(** C1, as stated, fails: submit validates the form before it looks at the
    selected file.  The untouched form (empty title, medium and size) with
    no file selected reports field errors and shows no toast at all. *)
Lemma submit_missing_image_counterexample :
  selectedFile (initialState 2025) = None
  /\ toasts (snd (Handler.run submit (initialState 2025))) = []
  /\ ~ (forall st : State,
          selectedFile st = None ->
          In (EToast (report MissingImage)) (snd (Handler.run submit st))).
Proof.
  split; [reflexivity|]. split; [reflexivity|].
  intros H. specialize (H (initialState 2025) eq_refl).
  vm_compute in H. exact H.
Qed.

(** C1, amended.  With no file selected, submit never issues a network
    call and leaves the field values, the (absent) selected file, the
    pending flag and the drag state as they were; when the values pass
    validation it reports MissingImage, and nothing else.  The handler
    [onSubmit] itself, on any data, reports MissingImage and changes
    nothing. *)
Theorem submit_without_file (st : State) :
  selectedFile st = None ->
  (networkCalls (snd (Handler.run submit st)) = []
   /\ invalidations (snd (Handler.run submit st)) = []
   /\ formValues (fst (Handler.run submit st)) = formValues st
   /\ selectedFile (fst (Handler.run submit st)) = None
   /\ isPending (fst (Handler.run submit st)) = isPending st
   /\ dragOver (fst (Handler.run submit st)) = dragOver st)
  /\ (forall data,
        artworkUploadSchema (formValues st) = inr data ->
        snd (Handler.run submit st) = [EToast (report MissingImage)])
  /\ (forall data,
        Handler.run (onSubmit data) st = (st, [EToast (report MissingImage)])).
Proof.
  intros Hnone. split; [|split].
  - destruct (artworkUploadSchema (formValues st)) as [errs|data] eqn:Hv.
    + rewrite (run_submit_invalid st errs Hv). cbn. repeat split. exact Hnone.
    + rewrite (run_submit_valid st data Hv).
      rewrite run_onSubmit_no_file by exact Hnone.
      cbn. repeat split. exact Hnone.
  - intros data Hv. rewrite (run_submit_valid st data Hv).
    rewrite run_onSubmit_no_file by exact Hnone. reflexivity.
  - intros data. apply run_onSubmit_no_file. exact Hnone.
Qed.

Lemma submit_without_file_witness :
  selectedFile (untitled_state None) = None
  /\ networkCalls (snd (Handler.run submit (untitled_state None))) = []
  /\ snd (Handler.run submit (untitled_state None))
     = [EToast (report MissingImage)]
  /\ Handler.run (onSubmit untitled_data) (untitled_state None)
     = (untitled_state None, [EToast (report MissingImage)]).
Proof.
  assert (Hnone : selectedFile (untitled_state None) = None) by reflexivity.
  destruct (submit_without_file (untitled_state None) Hnone)
    as [[Hnet _] [Hvalid Hhandler]].
  split; [exact Hnone|]. split; [exact Hnet|]. split.
  - apply (Hvalid untitled_data). reflexivity.
  - apply Hhandler.
Defined.

(** C7, as stated, fails: the payload does not always carry description and
    tags.  The form filled in with the required fields only (description
    and tags at their empty default) and a 2 MiB JPEG selected posts a body
    without either field. *)
Lemma submit_payload_counterexample :
  artworkUploadSchema (formValues (untitled_state (Some small_jpeg)))
  = inr untitled_data
  /\ networkCalls (snd (Handler.run submit (untitled_state (Some small_jpeg))))
     = [mkRequest "/api/admin/paintings" "POST"
          [("image", Blob small_jpeg); ("title", Text "Untitled");
           ("year", Text "2025"); ("medium", Text "Oil");
           ("size", Text "50x50"); ("availability", Text "available");
           ("featured", Text "false")]
          "include"]
  /\ ~ (forall (data : ArtworkUploadData) (image : File.t),
          has_field "description" (mutationFn_formData data image)
          /\ has_field "tags" (mutationFn_formData data image)).
Proof.
  split; [reflexivity|]. split; [reflexivity|].
  intros H. destruct (H untitled_data small_jpeg) as [[v Hin] _].
  vm_compute in Hin.
  repeat (destruct Hin as [Hin|Hin]; [discriminate Hin|]). exact Hin.
Qed.

(** C7, amended.  For every state with a selected file whose values pass
    validation, submit issues exactly one request: a POST to
    /api/admin/paintings, with credentials, whose multipart body is the
    image followed by title, year, medium, size, availability and featured
    as text (the year and the flag stringified), with description and tags
    present exactly when they are non-empty. *)
Theorem submit_payload (st : State) (image : File.t) (data : ArtworkUploadData) :
  selectedFile st = Some image ->
  artworkUploadSchema (formValues st) = inr data ->
  (exists st',
      Handler.run submit st
      = (st', [EFetch (mkRequest "/api/admin/paintings" "POST"
                                 (mutationFn_formData data image) "include")])
      /\ isPending st' = true)
  /\ mutationFn_formData data image =
     ([("image", Blob image);
       ("title", Text (title data));
       ("year", Text (Js.Number_toString (year data)));
       ("medium", Text (medium data));
       ("size", Text (size data))]
      ++ match description data with
         | Some d => if Js.truthy d then [("description", Text d)] else []
         | None => []
         end
      ++ [("availability", Text (Availability_string (availability data)))]
      ++ match tags data with
         | Some g => if Js.truthy g then [("tags", Text g)] else []
         | None => []
         end
      ++ [("featured", Text (Js.Boolean_toString (featured data)))])%list.
Proof.
  intros Hfile Hv. split.
  - rewrite (run_submit_valid st data Hv).
    rewrite (run_onSubmit_file data _ image) by exact Hfile.
    eexists. split; reflexivity.
  - unfold mutationFn_formData, append.
    destruct (description data) as [d|]; [destruct (Js.truthy d)|];
      (destruct (tags data) as [g|]; [destruct (Js.truthy g)|]); reflexivity.
Qed.

Lemma submit_payload_witness :
  (exists st',
      Handler.run submit (untitled_state (Some small_jpeg))
      = (st', [EFetch (mkRequest "/api/admin/paintings" "POST"
                         (mutationFn_formData untitled_data small_jpeg)
                         "include")])
      /\ isPending st' = true)
  /\ mutationFn_formData untitled_data small_jpeg =
     [("image", Blob small_jpeg); ("title", Text "Untitled");
      ("year", Text "2025"); ("medium", Text "Oil"); ("size", Text "50x50");
      ("availability", Text "available"); ("featured", Text "false")].
Proof.
  destruct (submit_payload (untitled_state (Some small_jpeg)) small_jpeg
              untitled_data eq_refl eq_refl) as [Hrun Hbody].
  split; [exact Hrun|]. rewrite Hbody. reflexivity.
Defined.

(** ** The response *)

Lemma run_onSuccess (thisYear : Z) (st : State) :
  Handler.run (onSuccess thisYear) st =
  (mkState None (dragOver st) (defaultValues thisYear) [] (isPending st),
   [EToast toast_success; EInvalidateQueries ["/api/paintings"]]).
Proof. reflexivity. Qed.

Lemma run_onError (msg : string) (st : State) :
  Handler.run (onError msg) st = (st, [EToast (toast_upload_failed msg)]).
Proof. destruct st. reflexivity. Qed.

Lemma run_settle (thisYear : Z) (response : Response) (st : State) :
  Handler.run (uploadMutation_settle thisYear response) st =
  Handler.run (uploadMutation_callbacks thisYear response)
    (mkState (selectedFile st) (dragOver st) (formValues st) (formErrors st)
             false).
Proof.
  unfold uploadMutation_settle. run_handlers.
  destruct (uploadMutation_callbacks thisYear response _) as [[u st'] effs].
  reflexivity.
Qed.


(** C4. After a successful submission (a response with a success status
    and a JSON body) every form field is back at its default, no file is
    selected, and the artwork list, the query keyed /api/paintings that
    the admin panel reads, is invalidated exactly once; nothing is sent. *)
Theorem upload_success_resets_and_invalidates
  (thisYear : Z) (st : State) (response : Response) (created : Body) :
  ok response = true ->
  json response = inr created ->
  (exists st',
      Handler.run (uploadMutation_settle thisYear response) st
      = (st', [EToast toast_success; EInvalidateQueries ["/api/paintings"]])
      /\ formValues st' = defaultValues thisYear
      /\ formErrors st' = []
      /\ selectedFile st' = None
      /\ isPending st' = false)
  /\ invalidations
       (snd (Handler.run (uploadMutation_settle thisYear response) st))
     = [["/api/paintings"]]
  /\ networkCalls
       (snd (Handler.run (uploadMutation_settle thisYear response) st))
     = []
  /\ (forall a o, In ["/api/paintings"]
                     (map AdminPanel.queryKey (AdminPanel.queries a o))).
Proof.
  intros Hok Hjson.
  assert (Hrun : Handler.run (uploadMutation_settle thisYear response) st
                 = (mkState None (dragOver st) (defaultValues thisYear) [] false,
                    [EToast toast_success;
                     EInvalidateQueries ["/api/paintings"]])).
  { rewrite run_settle. unfold uploadMutation_callbacks, mutationFn_resume.
    rewrite Hok, Hjson. cbn [negb]. apply run_onSuccess. }
  rewrite Hrun. split; [|split; [|split]].
  - eexists. split; [reflexivity|]. repeat split.
  - reflexivity.
  - reflexivity.
  - intros a o. left. reflexivity.
Qed.

Lemma upload_success_resets_and_invalidates_witness :
  (exists st',
      Handler.run (uploadMutation_settle 2025 response_created)
                  (untitled_state (Some small_jpeg))
      = (st', [EToast toast_success; EInvalidateQueries ["/api/paintings"]])
      /\ formValues st' = defaultValues 2025
      /\ formErrors st' = []
      /\ selectedFile st' = None
      /\ isPending st' = false)
  /\ invalidations
       (snd (Handler.run (uploadMutation_settle 2025 response_created)
                         (untitled_state (Some small_jpeg))))
     = [["/api/paintings"]]
  /\ networkCalls
       (snd (Handler.run (uploadMutation_settle 2025 response_created)
                         (untitled_state (Some small_jpeg))))
     = []
  /\ (forall a o, In ["/api/paintings"]
                     (map AdminPanel.queryKey (AdminPanel.queries a o))).
Proof.
  apply (upload_success_resets_and_invalidates 2025
           (untitled_state (Some small_jpeg)) response_created (ValueBody NoMessage)).
  - reflexivity.
  - reflexivity.
Defined.




(** ** The admin panel *)

Lemma fetches_enabled (a o : bool) :
  AdminPanel.fetches a o =
  if a && o then [["/api/paintings"]; ["/api/admin/messages"]] else [].
Proof. destruct a, o; reflexivity. Qed.

Lemma AdminPanel_run_unauthenticated (es : list AdminPanel.Event)
      (w : AdminPanel.World) :
  Forall (fun e => e <> AdminPanel.AuthChanged true) es ->
  AdminPanel.isAuthenticated w = false ->
  AdminPanel.isAuthenticated (AdminPanel.run w es) = false
  /\ AdminPanel.isOpen (AdminPanel.run w es) = AdminPanel.isOpen w
  /\ AdminPanel.issued (AdminPanel.run w es) = AdminPanel.issued w.
Proof.
  revert w.
  induction es as [|e es' IH]; intros w Hes Hw; [repeat split; assumption|].
  inversion Hes as [|? ? He Hes']; subst.
  cbn [AdminPanel.run fold_left].
  assert (Hstep : AdminPanel.step w e
                  = AdminPanel.mkWorld false (AdminPanel.isOpen w)
                                       (AdminPanel.issued w)).
  { unfold AdminPanel.step, AdminPanel.handleOpenAdmin. rewrite Hw.
    destruct e as [[|]| |b]; try congruence;
      cbn; rewrite app_nil_r; reflexivity. }
  rewrite Hstep.
  apply (IH (AdminPanel.mkWorld false (AdminPanel.isOpen w) (AdminPanel.issued w))
            Hes').
  reflexivity.
Qed.

(** C3. Without an authenticated session the admin panel renders nothing,
    whatever its open state and data; the open-admin-panel signal leaves
    the panel's open state as it was; and a fetch of the artwork list or of
    the message list is issued only when the session is authenticated and
    the panel is open.  Over time: a step of the panel issues a fetch only
    into a state that is authenticated and open, and while the session
    stays unauthenticated no sequence of signals opens the panel or
    fetches anything. *)
Theorem admin_panel_gated :
  (forall isOpen paintings messages,
      AdminPanel.render false isOpen paintings messages = None)
  /\ (forall isOpen, AdminPanel.handleOpenAdmin false isOpen = isOpen)
  /\ (forall a o key,
        In key (AdminPanel.fetches a o) -> a = true /\ o = true)
  /\ (forall w e,
        AdminPanel.issued (AdminPanel.step w e) <> AdminPanel.issued w ->
        AdminPanel.isAuthenticated (AdminPanel.step w e) = true
        /\ AdminPanel.isOpen (AdminPanel.step w e) = true)
  /\ (forall es,
        Forall (fun e => e <> AdminPanel.AuthChanged true) es ->
        AdminPanel.isOpen (AdminPanel.run (AdminPanel.initialWorld false) es)
        = false
        /\ AdminPanel.issued (AdminPanel.run (AdminPanel.initialWorld false) es)
           = []).
Proof.
  repeat apply conj.
  - reflexivity.
  - reflexivity.
  - intros a o key Hin. rewrite fetches_enabled in Hin.
    destruct a, o; cbn in Hin; try contradiction. split; reflexivity.
  - intros w e Hneq.
    assert (Hshape : exists a o,
               AdminPanel.step w e
               = AdminPanel.mkWorld a o
                   (AdminPanel.issued w ++ AdminPanel.fetches a o)).
    { unfold AdminPanel.step. destruct e; eexists; eexists; reflexivity. }
    destruct Hshape as [a [o Hstep]]. rewrite Hstep in *.
    cbn [AdminPanel.issued AdminPanel.isAuthenticated AdminPanel.isOpen] in *.
    rewrite fetches_enabled in Hneq.
    destruct a, o; cbn in Hneq; try (rewrite app_nil_r in Hneq; congruence).
    split; reflexivity.
  - intros es Hes.
    destruct (AdminPanel_run_unauthenticated es (AdminPanel.initialWorld false)
                Hes eq_refl) as [_ [Hopen Hissued]].
    rewrite Hopen, Hissued. split; reflexivity.
Qed.

Lemma admin_panel_gated_witness :
  (true = true /\ true = true)
  /\ (AdminPanel.isAuthenticated
        (AdminPanel.step (AdminPanel.initialWorld true) AdminPanel.OpenAdminPanel)
      = true
      /\ AdminPanel.isOpen
           (AdminPanel.step (AdminPanel.initialWorld true) AdminPanel.OpenAdminPanel)
         = true)
  /\ (AdminPanel.isOpen
        (AdminPanel.run (AdminPanel.initialWorld false)
           [AdminPanel.OpenAdminPanel; AdminPanel.OnOpenChange true;
            AdminPanel.OpenAdminPanel]) = false
      /\ AdminPanel.issued
           (AdminPanel.run (AdminPanel.initialWorld false)
              [AdminPanel.OpenAdminPanel; AdminPanel.OnOpenChange true;
               AdminPanel.OpenAdminPanel]) = []).
Proof.
  destruct admin_panel_gated as [_ [_ [Hfetch [Hstep Hrun]]]].
  split; [|split].
  - apply (Hfetch true true ["/api/admin/messages"]). cbn. right. left.
    reflexivity.
  - apply (Hstep (AdminPanel.initialWorld true) AdminPanel.OpenAdminPanel).
    cbn. discriminate.
  - apply Hrun. repeat constructor; discriminate.
Defined.

(** ** The message preview *)

Lemma insertNewestFirst_perm (m : ContactMessage) (l : list ContactMessage) :
  Permutation (m :: l) (insertNewestFirst m l).
Proof.
  induction l as [|x l IH]; cbn; [reflexivity|].
  destruct (createdAt x <=? createdAt m); [reflexivity|].
  rewrite perm_swap. apply perm_skip. exact IH.
Qed.

Lemma sortNewestFirst_perm (l : list ContactMessage) :
  Permutation l (sortNewestFirst l).
Proof.
  induction l as [|m l IH]; cbn; [constructor|].
  rewrite <- insertNewestFirst_perm. apply perm_skip. exact IH.
Qed.

Lemma insertNewestFirst_sorted (m : ContactMessage) (l : list ContactMessage) :
  Sorted newer_or_equal l -> Sorted newer_or_equal (insertNewestFirst m l).
Proof.
  induction l as [|x l IH]; intros Hs; cbn.
  - repeat constructor.
  - destruct (createdAt x <=? createdAt m) eqn:Hle.
    + constructor; [exact Hs|]. constructor. unfold newer_or_equal.
      apply Z.leb_le. exact Hle.
    + apply Z.leb_gt in Hle. inversion Hs as [|? ? Hs' Hhd]; subst.
      constructor; [apply IH; exact Hs'|].
      destruct l as [|y l']; cbn.
      * constructor. unfold newer_or_equal. lia.
      * destruct (createdAt y <=? createdAt m).
        -- constructor. unfold newer_or_equal. lia.
        -- constructor. inversion Hhd; subst. assumption.
Qed.

Lemma sortNewestFirst_sorted (l : list ContactMessage) :
  Sorted newer_or_equal (sortNewestFirst l).
Proof.
  induction l as [|m l IH]; cbn; [constructor|].
  apply insertNewestFirst_sorted. exact IH.
Qed.

(** Sorting a list that is already newest-first changes nothing. *)
Lemma sortNewestFirst_id (l : list ContactMessage) :
  Sorted newer_or_equal l -> sortNewestFirst l = l.
Proof.
  induction 1 as [|m l Hs IH Hhd]; cbn; [reflexivity|].
  rewrite IH. destruct Hhd as [|x l' Hx]; cbn; [reflexivity|].
  unfold newer_or_equal in Hx. apply Z.leb_le in Hx. rewrite Hx. reflexivity.
Qed.

(** C8, as stated, fails: the panel does not sort.  Of six messages that
    arrive oldest first it shows the five oldest, and the newest is not
    among them. *)
Lemma renderMessages_counterexample :
  AdminPanel.renderMessages oldest_first
  = AdminPanel.MessageCards
      [message_at 1; message_at 2; message_at 3; message_at 4; message_at 5]
  /\ fiveMostRecent oldest_first
     = [message_at 6; message_at 5; message_at 4; message_at 3; message_at 2]
  /\ ~ (forall messages : list ContactMessage,
          messages <> [] ->
          AdminPanel.renderMessages messages
          = AdminPanel.MessageCards (fiveMostRecent messages)).
Proof.
  split; [reflexivity|]. split; [reflexivity|].
  intros H. assert (Hne : oldest_first <> []) by discriminate.
  specialize (H oldest_first Hne). vm_compute in H. discriminate H.
Qed.

(** C8, amended.  With no message the panel shows the empty state;
    otherwise it shows the first five messages (all of them when there are
    fewer) of the list in the order the server sent it, and these are the
    five most recent by createdAt descending whenever that list is already
    sorted newest first. *)
Theorem renderMessages_spec (messages : list ContactMessage) :
  AdminPanel.renderMessages [] = AdminPanel.NoMessages "No messages yet."
  /\ (messages <> [] ->
      AdminPanel.renderMessages messages
      = AdminPanel.MessageCards (firstn 5 messages)
      /\ (List.length (firstn 5 messages) <= 5)%nat
      /\ List.length (firstn 5 messages) = Nat.min 5 (List.length messages))
  /\ (messages <> [] ->
      Sorted newer_or_equal messages ->
      AdminPanel.renderMessages messages
      = AdminPanel.MessageCards (fiveMostRecent messages)).
Proof.
  assert (Hrender : messages <> [] ->
                    AdminPanel.renderMessages messages
                    = AdminPanel.MessageCards (firstn 5 messages)).
  { intros Hne. unfold AdminPanel.renderMessages, Js.slice0.
    destruct messages as [|m l]; [congruence|].
    cbn [List.length Nat.eqb]. rewrite map_id. reflexivity. }
  split; [reflexivity|]. split.
  - intros Hne. split; [apply Hrender; exact Hne|]. split.
    + apply firstn_le_length.
    + apply length_firstn.
  - intros Hne Hsorted. rewrite (Hrender Hne). unfold fiveMostRecent.
    rewrite (sortNewestFirst_id messages Hsorted). reflexivity.
Qed.

Lemma renderMessages_spec_witness :
  AdminPanel.renderMessages newest_first
  = AdminPanel.MessageCards (firstn 5 newest_first)
  /\ AdminPanel.renderMessages newest_first
     = AdminPanel.MessageCards (fiveMostRecent newest_first).
Proof.
  assert (Hne : newest_first <> []) by discriminate.
  destruct (renderMessages_spec newest_first) as [_ [Hfirst Hsorted]].
  split.
  - apply (Hfirst Hne).
  - apply (Hsorted Hne).
    repeat constructor; unfold newer_or_equal; cbn; lia.
Defined.

(** ** Handlers inside the machine *)

Section Sequential.

Variable thisYear : Z.

Lemma handle_eq (h : Handler.t unit) (w : World) :
  handle h w =
  mkWorld (fst (Handler.run h (ui w)))
          (buttonDisabled w)
          (rev (networkCalls (snd (Handler.run h (ui w)))) ++ inFlight w)
          (log w ++ snd (Handler.run h (ui w))).
Proof.
  unfold handle. destruct (Handler.run h (ui w)) as [st effs]. reflexivity.
Qed.

Lemma handle_quiet (h : Handler.t unit) (w : World) :
  quiet h -> settled_or_single w -> settled_or_single (handle h w).
Proof.
  intros Hq Hw. destruct (Hq (ui w)) as [Hnet Hpend].
  rewrite handle_eq. unfold settled_or_single. cbn [inFlight ui].
  rewrite Hnet, Hpend. exact Hw.
Qed.

Lemma quiet_setFormValues (v : FormValues) : quiet (setFormValues v).
Proof. intros st. split; reflexivity. Qed.

Lemma quiet_setDragOver (b : bool) : quiet (setDragOver b).
Proof. intros st. split; reflexivity. Qed.

Lemma quiet_handleFileSelect (file : File.t) : quiet (handleFileSelect file).
Proof.
  intros st. rewrite run_handleFileSelect.
  destruct (ten_MiB <? File.size file); [split; reflexivity|].
  destruct (Js.startsWith (File.type file) "image/"); split; reflexivity.
Qed.

Lemma quiet_handleFileInput (files : option (list File.t)) :
  quiet (handleFileInput files).
Proof.
  destruct files as [[|file l]|]; try (intros st; split; reflexivity).
  apply quiet_handleFileSelect.
Qed.

Lemma quiet_handleDrop (files : list File.t) : quiet (handleDrop files).
Proof.
  intros st. destruct files as [|file l]; [split; reflexivity|].
  unfold handleDrop.
  destruct (quiet_handleFileSelect file
              (mkState (selectedFile st) false (formValues st)
                       (formErrors st) (isPending st))) as [Hnet Hpend].
  unfold Handler.run in *. run_handlers.
  destruct (handleFileSelect file _) as [[u st'] effs]. cbn in *.
  split; assumption.
Qed.

Lemma quiet_callbacks (response : Response) :
  quiet (uploadMutation_callbacks thisYear response).
Proof.
  intros st. unfold uploadMutation_callbacks.
  destruct (mutationFn_resume response) as [msg|created].
  - rewrite run_onError. split; reflexivity.
  - rewrite run_onSuccess. split; reflexivity.
Qed.

(** What a submit does to the requests and to the pending flag. *)
Lemma run_submit_cases (st : State) :
  (networkCalls (snd (Handler.run submit st)) = []
   /\ isPending (fst (Handler.run submit st)) = isPending st)
  \/ (exists r, networkCalls (snd (Handler.run submit st)) = [r]
                /\ isPending (fst (Handler.run submit st)) = true).
Proof.
  destruct (artworkUploadSchema (formValues st)) as [errs|data] eqn:Hv.
  - left. rewrite (run_submit_invalid st errs Hv). split; reflexivity.
  - rewrite (run_submit_valid st data Hv).
    destruct (selectedFile st) as [image|] eqn:Hf.
    + right. rewrite (run_onSubmit_file data _ image) by reflexivity.
      eexists. split; reflexivity.
    + left. rewrite run_onSubmit_no_file by reflexivity. split; reflexivity.
Qed.

End Sequential.

Example upload_scenario :
  run 2025 (initialWorld 2025) (submit_once ++ [ResponseArrives 0 response_created])
  = mkWorld (initialState 2025) false []
      [EFetch (mutationFn_request untitled_data small_jpeg);
       EToast toast_success;
       EInvalidateQueries ["/api/paintings"]].
Proof. reflexivity. Qed.

(** The guard is the button: the handler itself does not look at the
    pending flag, and called while a submission is pending it would send a
    second request. *)
Remark onSubmit_unguarded (data : ArtworkUploadData) (image : File.t) (st : State) :
  isPending st = true ->
  selectedFile st = Some image ->
  networkCalls (snd (Handler.run (onSubmit data) st))
  = [mutationFn_request data image].
Proof.
  intros _ Hf. rewrite (run_onSubmit_file data st image Hf). reflexivity.
Qed.

(** * Further properties of the upload form *)

(** ** Dropping and choosing files *)

Lemma run_handleDrop (files : list File.t) (st : State) :
  Handler.run (handleDrop files) st =
  match files with
  | [] => (with_dragOver false st, [])
  | file :: _ => Handler.run (handleFileSelect file) (with_dragOver false st)
  end.
Proof.
  unfold handleDrop, with_dragOver. destruct files as [|file rest].
  - reflexivity.
  - run_handlers. destruct (handleFileSelect file _) as [[u st'] effs].
    reflexivity.
Qed.

Lemma run_handleFileInput (files : option (list File.t)) (st : State) :
  Handler.run (handleFileInput files) st =
  match files with
  | Some (file :: _) => Handler.run (handleFileSelect file) st
  | _ => (st, [])
  end.
Proof. destruct files as [[|file rest]|]; reflexivity. Qed.

(** X1. A drop always ends the drag highlight, also when the dropped file
    is rejected or nothing was dropped; only the first dropped file is
    looked at; a drop never sends anything and never touches the field
    values; and the file selected afterwards is the one selected before or
    the first dropped file. *)
Theorem handleDrop_first_file_only (files : list File.t) (st : State) :
  dragOver (fst (Handler.run (handleDrop files) st)) = false
  /\ Handler.run (handleDrop files) st
     = Handler.run (handleDrop (firstn 1 files)) st
  /\ networkCalls (snd (Handler.run (handleDrop files) st)) = []
  /\ formValues (fst (Handler.run (handleDrop files) st)) = formValues st
  /\ (selectedFile (fst (Handler.run (handleDrop files) st)) = selectedFile st
      \/ selectedFile (fst (Handler.run (handleDrop files) st)) = hd_error files).
Proof.
  rewrite !run_handleDrop. destruct files as [|file rest]; cbn [firstn hd_error].
  - repeat split. left. reflexivity.
  - rewrite run_handleFileSelect.
    destruct (ten_MiB <? File.size file);
      [|destruct (Js.startsWith (File.type file) "image/")];
      cbn; repeat split; auto.
Qed.

(** X2. Choosing files through the input is dropping them without the
    highlight: a drop behaves as the file input does on the state whose
    highlight is cleared.  A cancelled dialog (no list, or an empty one)
    changes nothing and shows nothing. *)
Theorem handleFileInput_as_drop (files : list File.t) (st : State) :
  Handler.run (handleDrop files) st
  = Handler.run (setDragOver false ;; handleFileInput (Some files)) st
  /\ (dragOver st = false ->
      Handler.run (handleDrop files) st
      = Handler.run (handleFileInput (Some files)) st)
  /\ Handler.run (handleFileInput None) st = (st, [])
  /\ Handler.run (handleFileInput (Some [])) st = (st, []).
Proof.
  split; [|split; [|split]].
  - unfold handleDrop, handleFileInput. destruct files; reflexivity.
  - intros Hd. rewrite run_handleDrop, run_handleFileInput.
    assert (Hst : with_dragOver false st = st).
    { unfold with_dragOver. rewrite <- Hd. destruct st. reflexivity. }
    rewrite Hst. destruct files as [|file rest]; reflexivity.
  - reflexivity.
  - reflexivity.
Qed.

Lemma handleFileInput_as_drop_witness :
  Handler.run (handleDrop [small_jpeg; big_text_file]) (initialState 2025)
  = Handler.run (handleFileInput (Some [small_jpeg; big_text_file]))
                (initialState 2025).
Proof.
  apply (proj1 (proj2 (handleFileInput_as_drop [small_jpeg; big_text_file]
                         (initialState 2025)))).
  reflexivity.
Defined.

(** ** What a submit does *)

Lemma run_submit (st : State) :
  Handler.run submit st =
  match artworkUploadSchema (formValues st) with
  | inl errs =>
      (mkState (selectedFile st) (dragOver st) (formValues st) errs
               (isPending st), [])
  | inr data =>
      match selectedFile st with
      | None =>
          (mkState None (dragOver st) (formValues st) [] (isPending st),
           [EToast toast_image_required])
      | Some image =>
          (mkState (Some image) (dragOver st) (formValues st) [] true,
           [EFetch (mutationFn_request data image)])
      end
  end.
Proof.
  destruct (artworkUploadSchema (formValues st)) as [errs|data] eqn:Hv.
  - apply run_submit_invalid. exact Hv.
  - rewrite (run_submit_valid st data Hv).
    destruct (selectedFile st) as [image|] eqn:Hf.
    + rewrite (run_onSubmit_file data _ image) by reflexivity. reflexivity.
    + rewrite run_onSubmit_no_file by reflexivity. reflexivity.
Qed.

(** X3. A submit sends a request exactly when the values pass validation
    and a file is selected, and then it sends exactly one, built from the
    validated record and that file; in every other case it sends
    nothing. *)
Theorem submit_sends_iff (st : State) :
  (networkCalls (snd (Handler.run submit st)) <> []
   <-> exists data image,
        artworkUploadSchema (formValues st) = inr data
        /\ selectedFile st = Some image)
  /\ (forall data image,
        artworkUploadSchema (formValues st) = inr data ->
        selectedFile st = Some image ->
        networkCalls (snd (Handler.run submit st))
        = [mutationFn_request data image])
  /\ (List.length (networkCalls (snd (Handler.run submit st))) <= 1)%nat.
Proof.
  rewrite run_submit.
  destruct (artworkUploadSchema (formValues st)) as [errs|data];
    [|destruct (selectedFile st) as [image|]]; cbn.
  - split; [split|split].
    + congruence.
    + intros [d [i [Hd _]]]. discriminate Hd.
    + intros d i Hd. discriminate Hd.
    + lia.
  - split; [split|split].
    + intros _. exists data, image. split; reflexivity.
    + discriminate.
    + intros d i Hd Hi. congruence.
    + lia.
  - split; [split|split].
    + congruence.
    + intros [d [i [_ Hi]]]. discriminate Hi.
    + intros d i _ Hi. discriminate Hi.
    + lia.
Qed.

Lemma submit_sends_iff_witness :
  networkCalls (snd (Handler.run submit (untitled_state (Some small_jpeg))))
  = [mutationFn_request untitled_data small_jpeg]
  /\ networkCalls (snd (Handler.run submit (untitled_state (Some small_jpeg))))
     <> [].
Proof.
  destruct (submit_sends_iff (untitled_state (Some small_jpeg)))
    as [[_ Hsends] [Hone _]].
  split.
  - apply (Hone untitled_data small_jpeg); reflexivity.
  - apply Hsends. exists untitled_data, small_jpeg. split; reflexivity.
Defined.

(** X4. A submit never alters what the user entered: the field values, the
    selected file and the drag highlight are the same afterwards, nothing
    is invalidated, and the only toast it can show is the one for a
    missing image.  The mutation becomes pending exactly when a request
    goes out. *)
Theorem submit_frame (st : State) :
  formValues (fst (Handler.run submit st)) = formValues st
  /\ selectedFile (fst (Handler.run submit st)) = selectedFile st
  /\ dragOver (fst (Handler.run submit st)) = dragOver st
  /\ invalidations (snd (Handler.run submit st)) = []
  /\ (forall t, In t (toasts (snd (Handler.run submit st))) ->
                t = report MissingImage)
  /\ isPending (fst (Handler.run submit st))
     = match networkCalls (snd (Handler.run submit st)) with
       | [] => isPending st
       | _ :: _ => true
       end.
Proof.
  rewrite run_submit.
  destruct (artworkUploadSchema (formValues st)) as [errs|data];
    [|destruct (selectedFile st) as [image|]]; cbn; repeat split;
    try contradiction.
  intros t [Ht|[]]. symmetry. exact Ht.
Qed.

Lemma submit_frame_witness :
  In toast_image_required
     (toasts (snd (Handler.run submit (untitled_state None))))
  /\ toast_image_required = report MissingImage.
Proof.
  assert (Hin : In toast_image_required
                   (toasts (snd (Handler.run submit (untitled_state None)))))
    by (left; reflexivity).
  split; [exact Hin|].
  apply (proj1 (proj2 (proj2 (proj2 (proj2
           (submit_frame (untitled_state None))))))
           toast_image_required Hin).
Defined.

(** ** What the schema accepts *)

Lemma string_min1_inr (msg field : string) (v : Js.value) (s : string) :
  Zod.string_min1 msg field v = inr s -> v = Js.Str s /\ s <> "".
Proof.
  unfold Zod.string_min1. destruct v as [| |b|z| |s']; try discriminate.
  destruct s' as [|c s''].
  - cbn. discriminate.
  - destruct (Z.of_nat (String.length (String c s'')) <? 1); [discriminate|].
    intros H. inversion H. split; [reflexivity | discriminate].
Qed.

Lemma number_min_max_inr (lo hi : Z) (field : string) (v : Js.value) (z : Z) :
  Zod.number_min_max lo hi field v = inr z -> v = Js.Num z /\ lo <= z <= hi.
Proof.
  unfold Zod.number_min_max. destruct v as [| |b|z'| |s]; try discriminate.
  destruct (z' <? lo) eqn:Hlo; [discriminate|].
  destruct (hi <? z') eqn:Hhi; [discriminate|].
  cbn. intros H. inversion H. subst.
  apply Z.ltb_ge in Hlo, Hhi. split; [reflexivity | lia].
Qed.

Lemma string_optional_inr (field : string) (v : Js.value) (o : option string) :
  Zod.string_optional field v = inr o <-> v = of_option o.
Proof.
  unfold Zod.string_optional, of_option. split.
  - destruct v as [| |b|z| |s]; try discriminate; intros H; inversion H;
      reflexivity.
  - intros Hv. subst v. destruct o; reflexivity.
Qed.

Lemma availability_enum_inr (field : string) (v : Js.value) (a : Availability) :
  availability_enum field v = inr a -> v = Js.Str (Availability_string a).
Proof.
  unfold availability_enum. destruct v as [| |b|z| |s]; try discriminate.
  destruct (String.eqb_spec s "available");
    [subst; intros H; inversion H; reflexivity|].
  destruct (String.eqb_spec s "sold");
    [subst; intros H; inversion H; reflexivity|].
  destruct (String.eqb_spec s "not-for-sale");
    [subst; intros H; inversion H; reflexivity|].
  discriminate.
Qed.

Lemma boolean_default_inr (field : string) (v : Js.value) (b : bool) :
  Zod.boolean_default false field v = inr b
  <-> v = Js.Bool b \/ (v = Js.Undefined /\ b = false).
Proof.
  unfold Zod.boolean_default. split.
  - destruct v as [| |b'|z| |s]; try discriminate; intros H; inversion H.
    + right. split; reflexivity.
    + left. reflexivity.
  - intros [Hv|[Hv Hb]]; subst; reflexivity.
Qed.

Lemma artworkUploadSchema_inr (v : FormValues) (data : ArtworkUploadData) :
  artworkUploadSchema v = inr data ->
  Zod.string_min1 "Title is required" "title" (f_title v) = inr (title data)
  /\ Zod.number_min_max 1900 2030 "year" (f_year v) = inr (year data)
  /\ Zod.string_min1 "Medium is required" "medium" (f_medium v) = inr (medium data)
  /\ Zod.string_min1 "Size is required" "size" (f_size v) = inr (size data)
  /\ Zod.string_optional "description" (f_description v) = inr (description data)
  /\ availability_enum "availability" (f_availability v) = inr (availability data)
  /\ Zod.string_optional "tags" (f_tags v) = inr (tags data)
  /\ Zod.boolean_default false "featured" (f_featured v) = inr (featured data).
Proof.
  intros Hv. destruct (artworkUploadSchema_cases v) as [Hs | [d [Hd Hok]]].
  - congruence.
  - assert (d = data) by congruence. subst d. exact Hok.
Qed.

Lemma artworkUploadSchema_well_formed (v : FormValues) (data : ArtworkUploadData) :
  artworkUploadSchema v = inr data -> well_formed data.
Proof.
  intros Hv.
  destruct (artworkUploadSchema_inr v data Hv)
    as [Ht [Hy [Hm [Hs _]]]].
  apply string_min1_inr in Ht, Hm, Hs. apply number_min_max_inr in Hy.
  unfold well_formed. tauto.
Qed.

(** X5. Validation succeeds exactly on the values whose title, medium and
    size are non-empty texts, whose year is a number in [1900, 2030], whose
    availability is one of the three values, whose description and tags are
    texts or absent, and whose featured flag is a boolean or absent; the
    normalized record then carries those values unchanged, with an absent
    flag read as false. *)
Theorem artworkUploadSchema_accepts_iff (v : FormValues) (data : ArtworkUploadData) :
  artworkUploadSchema v = inr data
  <-> (f_title v = Js.Str (title data) /\ title data <> ""
       /\ f_year v = Js.Num (year data) /\ 1900 <= year data <= 2030
       /\ f_medium v = Js.Str (medium data) /\ medium data <> ""
       /\ f_size v = Js.Str (size data) /\ size data <> ""
       /\ f_description v = of_option (description data)
       /\ f_availability v = Js.Str (Availability_string (availability data))
       /\ f_tags v = of_option (tags data)
       /\ (f_featured v = Js.Bool (featured data)
           \/ (f_featured v = Js.Undefined /\ featured data = false))).
Proof.
  split.
  - intros Hv.
    destruct (artworkUploadSchema_inr v data Hv)
      as [Ht [Hy [Hm [Hs [Hd [Ha [Hg Hf]]]]]]].
    apply string_min1_inr in Ht, Hm, Hs. apply number_min_max_inr in Hy.
    apply string_optional_inr in Hd, Hg. apply availability_enum_inr in Ha.
    apply boolean_default_inr in Hf. tauto.
  - intros [Ht [Ht' [Hy [Hy' [Hm [Hm' [Hs [Hs' [Hd [Ha [Hg Hf]]]]]]]]]]].
    unfold artworkUploadSchema.
    rewrite Ht, Hy, Hm, Hs, Ha.
    rewrite (string_min1_nonempty _ _ _ Ht'), (string_min1_nonempty _ _ _ Hm'),
      (string_min1_nonempty _ _ _ Hs'), (number_min_max_in_range _ _ _ _ Hy'),
      availability_enum_ok.
    rewrite (proj2 (string_optional_inr "description" _ _) Hd).
    rewrite (proj2 (string_optional_inr "tags" _ _) Hg).
    rewrite (proj2 (boolean_default_inr "featured" _ _) Hf).
    destruct data. reflexivity.
Qed.

Lemma artworkUploadSchema_accepts_iff_witness :
  artworkUploadSchema untitled_values = inr untitled_data
  /\ f_year untitled_values = Js.Num 2025.
Proof.
  assert (Hv : artworkUploadSchema untitled_values = inr untitled_data).
  { apply (proj2 (artworkUploadSchema_accepts_iff untitled_values untitled_data)).
    cbn. repeat split; try discriminate; try lia. left. reflexivity. }
  split; [exact Hv|].
  apply (proj1 (artworkUploadSchema_accepts_iff untitled_values untitled_data) Hv).
Defined.

(** ** The multipart body *)

Lemma truthy_nonempty (s : string) : Js.truthy s = true <-> s <> "".
Proof. destruct s; cbn; split; congruence. Qed.

Lemma mutationFn_formData_app (data : ArtworkUploadData) (image : File.t) :
  mutationFn_formData data image =
  ([("image", Blob image);
    ("title", Text (title data));
    ("year", Text (Js.Number_toString (year data)));
    ("medium", Text (medium data));
    ("size", Text (size data))]
   ++ match description data with
      | Some d => if Js.truthy d then [("description", Text d)] else []
      | None => []
      end
   ++ [("availability", Text (Availability_string (availability data)))]
   ++ match tags data with
      | Some g => if Js.truthy g then [("tags", Text g)] else []
      | None => []
      end
   ++ [("featured", Text (Js.Boolean_toString (featured data)))])%list.
Proof.
  unfold mutationFn_formData, append.
  destruct (description data) as [d|]; [destruct (Js.truthy d)|];
    (destruct (tags data) as [g|]; [destruct (Js.truthy g)|]); reflexivity.
Qed.

Ltac split_body data :=
  rewrite mutationFn_formData_app;
  destruct (description data) as [d|]; [destruct (Js.truthy d) eqn:Hd|];
  (destruct (tags data) as [g|]; [destruct (Js.truthy g) eqn:Hg|]).

(** X6. In every body the form builds, the field names are pairwise
    distinct, the image comes first and is the only binary part, there are
    between seven and nine parts, and a description or tags part, when
    present, is never empty. *)
Theorem mutationFn_formData_parts (data : ArtworkUploadData) (image : File.t) :
  NoDup (map fst (mutationFn_formData data image))
  /\ hd_error (mutationFn_formData data image) = Some ("image", Blob image)
  /\ (forall k f, In (k, Blob f) (mutationFn_formData data image) ->
                  k = "image" /\ f = image)
  /\ (7 <= List.length (mutationFn_formData data image) <= 9)%nat
  /\ (forall k s, In (k, Text s) (mutationFn_formData data image) ->
                  k = "description" \/ k = "tags" -> s <> "").
Proof.
  split; [|split; [|split; [|split]]].
  - split_body data; cbn; repeat constructor; cbn; intuition discriminate.
  - split_body data; reflexivity.
  - intros k f Hin. revert Hin. split_body data; cbn; intros Hin;
      repeat (destruct Hin as [Hin|Hin]; [inversion Hin; auto|]);
      contradiction.
  - split_body data; cbn; lia.
  - intros k s Hin Hk. revert Hin.
    split_body data; cbn; intros Hin;
      repeat (destruct Hin as [Hin|Hin];
              [inversion Hin; subst;
               try (destruct Hk; discriminate);
               try (apply truthy_nonempty; assumption)|]);
      contradiction.
Qed.

Lemma mutationFn_formData_parts_witness :
  "image" = "image" /\ small_jpeg = small_jpeg.
Proof.
  apply (proj1 (proj2 (proj2
           (mutationFn_formData_parts untitled_data small_jpeg)))
           "image" small_jpeg).
  left. reflexivity.
Defined.

(** X7. The body does not tell an empty description from an absent one,
    nor empty tags from absent tags: the form's untouched optional fields
    are sent exactly as if they had never existed. *)
Theorem mutationFn_formData_empty_is_absent
  (data : ArtworkUploadData) (image : File.t) :
  mutationFn_formData (set_description (Some "") data) image
  = mutationFn_formData (set_description None data) image
  /\ mutationFn_formData (set_tags (Some "") data) image
     = mutationFn_formData (set_tags None data) image
  /\ ~ has_field "description"
       (mutationFn_formData (set_description (Some "") data) image)
  /\ ~ has_field "tags" (mutationFn_formData (set_tags (Some "") data) image).
Proof.
  split; [reflexivity|]. split; [reflexivity|]. split.
  - intros [v Hin]. revert Hin. rewrite mutationFn_formData_app.
    cbn [set_description description tags Js.truthy].
    destruct (tags data) as [g|]; [destruct (Js.truthy g)|]; cbn;
      intros Hin;
      repeat (destruct Hin as [Hin|Hin]; [discriminate Hin|]); contradiction.
  - intros [v Hin]. revert Hin. rewrite mutationFn_formData_app.
    cbn [set_tags description tags Js.truthy].
    destruct (description data) as [d|]; [destruct (Js.truthy d)|]; cbn;
      intros Hin;
      repeat (destruct Hin as [Hin|Hin]; [discriminate Hin|]); contradiction.
Qed.

(** ** Responses *)

(** X8. A response with a success status whose body is not JSON counts as
    a failure: the parser's message is shown as an upload error, the form
    is not reset, the selected file stays, and the artwork list is not
    invalidated. *)
Theorem upload_ok_status_bad_body
  (thisYear : Z) (st : State) (response : Response) (parse_error : string) :
  ok response = true ->
  json response = inl parse_error ->
  Handler.run (uploadMutation_settle thisYear response) st
  = (with_pending false st, [EToast (report (UploadError parse_error))])
  /\ invalidations
       (snd (Handler.run (uploadMutation_settle thisYear response) st)) = []
  /\ formValues (fst (Handler.run (uploadMutation_settle thisYear response) st))
     = formValues st
  /\ selectedFile (fst (Handler.run (uploadMutation_settle thisYear response) st))
     = selectedFile st.
Proof.
  intros Hok Hjson.
  assert (Hrun : Handler.run (uploadMutation_settle thisYear response) st
                 = (with_pending false st,
                    [EToast (report (UploadError parse_error))])).
  { rewrite run_settle. unfold uploadMutation_callbacks, mutationFn_resume.
    rewrite Hok, Hjson. cbn [negb]. apply run_onError. }
  rewrite Hrun. repeat split.
Qed.

Lemma upload_ok_status_bad_body_witness :
  Handler.run
    (uploadMutation_settle 2025 (response_ok_not_json "Unexpected token <"))
    (untitled_state (Some small_jpeg))
  = (untitled_state (Some small_jpeg),
     [EToast (report (UploadError "Unexpected token <"))]).
Proof.
  apply (proj1 (upload_ok_status_bad_body 2025 (untitled_state (Some small_jpeg))
                  (response_ok_not_json "Unexpected token <")
                  "Unexpected token <" eq_refl eq_refl)).
Defined.

(** ** The form over time *)

Lemma networkCalls_app (l1 l2 : list Effect) :
  networkCalls (l1 ++ l2) = (networkCalls l1 ++ networkCalls l2)%list.
Proof. apply flat_map_app. Qed.

Lemma invalidations_app (l1 l2 : list Effect) :
  invalidations (l1 ++ l2) = (invalidations l1 ++ invalidations l2)%list.
Proof. apply flat_map_app. Qed.

Lemma remove_nth_length {A : Type} (i : nat) (l : list A) (x : A) :
  nth_error l i = Some x ->
  List.length l = S (List.length (remove_nth i l)).
Proof.
  revert i. induction l as [|y l IH]; intros [|i] Hn; cbn in *;
    try discriminate; [reflexivity|].
  f_equal. apply (IH i Hn).
Qed.

Lemma local_setFormValues (v : FormValues) : local (setFormValues v).
Proof. intros st. cbn. repeat split. intros f Hf. left. exact Hf. Qed.

Lemma local_setDragOver (b : bool) : local (setDragOver b).
Proof. intros st. cbn. repeat split. intros f Hf. left. exact Hf. Qed.

Lemma local_handleFileSelect (file : File.t) : local (handleFileSelect file).
Proof.
  intros st. rewrite run_handleFileSelect.
  destruct (ten_MiB <? File.size file) eqn:Hsz;
    [|destruct (Js.startsWith (File.type file) "image/") eqn:Hty];
    cbn; repeat split; intros f Hf; try (left; exact Hf).
  right. inversion Hf; subst. apply Z.ltb_ge in Hsz. split; assumption.
Qed.

Lemma local_handleFileInput (files : option (list File.t)) :
  local (handleFileInput files).
Proof.
  intros st. rewrite run_handleFileInput.
  destruct files as [[|file rest]|];
    try (cbn; repeat split; intros f Hf; left; exact Hf).
  apply local_handleFileSelect.
Qed.

Lemma local_handleDrop (files : list File.t) : local (handleDrop files).
Proof.
  intros st. rewrite run_handleDrop. destruct files as [|file rest].
  - cbn. repeat split. intros f Hf. left. exact Hf.
  - apply (local_handleFileSelect file (with_dragOver false st)).
Qed.

Lemma handle_local (h : Handler.t unit) (w : World) (budget : nat) :
  local h -> accounted w (handle h w) budget.
Proof.
  intros Hl. destruct (Hl (ui w)) as [Hnet [Hinv Hsel]].
  rewrite handle_eq. exists (snd (Handler.run h (ui w))).
  cbn [log inFlight ui]. rewrite Hnet, Hinv. cbn.
  repeat split; try lia; try contradiction. exact Hsel.
Qed.

Lemma accounted_refl (w : World) (budget : nat) : accounted w w budget.
Proof.
  exists []. rewrite app_nil_r. cbn.
  repeat split; try lia; try contradiction. intros f Hf. left. exact Hf.
Qed.

Lemma handle_submit_accounted (w : World) :
  accounted w (handle submit w) 1.
Proof.
  rewrite handle_eq. exists (snd (Handler.run submit (ui w))).
  cbn [log inFlight ui]. rewrite run_submit.
  destruct (artworkUploadSchema (formValues (ui w))) as [errs|data] eqn:Hv;
    [|destruct (selectedFile (ui w)) as [image|] eqn:Hf]; cbn;
    repeat split; try lia; try contradiction;
    try (intros f Hf'; left; exact Hf').
  intros r [Hr|[]]. subst r. exists data, image. repeat split.
Qed.

Lemma callbacks_effects (thisYear : Z) (response : Response) (st : State) :
  networkCalls (snd (Handler.run (uploadMutation_callbacks thisYear response) st))
  = []
  /\ (List.length
        (invalidations
           (snd (Handler.run (uploadMutation_callbacks thisYear response) st)))
      <= 1)%nat
  /\ (forall f,
        selectedFile
          (fst (Handler.run (uploadMutation_callbacks thisYear response) st))
        = Some f ->
        selectedFile st = Some f).
Proof.
  unfold uploadMutation_callbacks.
  destruct (mutationFn_resume response) as [msg|created].
  - rewrite run_onError. cbn. repeat split; [lia | auto].
  - rewrite run_onSuccess. cbn. repeat split; [lia | discriminate].
Qed.

Lemma step_accounted (thisYear : Z) (w : World) (e : Event) :
  accounted w (step thisYear w e) (if is_submit e then 1 else 0).
Proof.
  destruct e as [v|files|files| | | | |i response]; cbn [step is_submit].
  - apply handle_local, local_setFormValues.
  - apply handle_local, local_handleDrop.
  - apply handle_local, local_handleFileInput.
  - apply handle_local, local_setDragOver.
  - apply handle_local, local_setDragOver.
  - destruct (buttonDisabled w); [apply accounted_refl|].
    destruct (negb (yearInput_valid (formValues (ui w))));
      [apply accounted_refl | apply handle_submit_accounted].
  - exists []. rewrite app_nil_r. cbn.
    repeat split; try lia; try contradiction. intros f Hf. left. exact Hf.
  - destruct (nth_error (inFlight w) i) as [r|] eqn:Hn; [|apply accounted_refl].
    assert (Hlen := remove_nth_length i (inFlight w) r Hn).
    destruct i as [|i].
    + rewrite handle_eq. cbn [log inFlight ui]. rewrite run_settle.
      destruct (callbacks_effects thisYear response (with_pending false (ui w)))
        as [Hnet [Hinv Hsel]].
      unfold with_pending in *.
      eexists. split; [reflexivity|]. rewrite Hnet. cbn in Hlen |- *.
      repeat split; try lia; try contradiction.
      intros f Hf. left. apply (Hsel f Hf).
    + rewrite handle_eq. cbn [log inFlight ui].
      destruct (callbacks_effects thisYear response (ui w))
        as [Hnet [Hinv Hsel]].
      eexists. split; [reflexivity|]. rewrite Hnet. cbn in Hlen |- *.
      repeat split; try lia; try contradiction.
      intros f Hf. left. apply (Hsel f Hf).
Qed.

Lemma run_cons (thisYear : Z) (w : World) (e : Event) (es : list Event) :
  run thisYear w (e :: es) = run thisYear (step thisYear w e) es.
Proof. reflexivity. Qed.

Lemma run_requests_bounded (thisYear : Z) (es : list Event) (w : World) :
  (List.length (networkCalls (log (run thisYear w es)))
   <= List.length (networkCalls (log w)) + count_submits es)%nat.
Proof.
  revert w. induction es as [|e es IH]; intros w; [cbn; lia|].
  rewrite run_cons. specialize (IH (step thisYear w e)).
  destruct (step_accounted thisYear w e) as [effs [Hlog [_ [Hbudget _]]]].
  rewrite Hlog, networkCalls_app, length_app in IH.
  unfold count_submits in *. cbn [filter].
  destruct (is_submit e); cbn [List.length]; lia.
Qed.

Lemma run_balance (thisYear : Z) (es : list Event) (w : World) :
  (List.length (invalidations (log w)) + List.length (inFlight w)
   <= List.length (networkCalls (log w)))%nat ->
  (List.length (invalidations (log (run thisYear w es)))
   + List.length (inFlight (run thisYear w es))
   <= List.length (networkCalls (log (run thisYear w es))))%nat.
Proof.
  revert w. induction es as [|e es IH]; intros w Hw; [exact Hw|].
  rewrite run_cons. apply IH.
  destruct (step_accounted thisYear w e) as [effs [Hlog [Hacc _]]].
  rewrite Hlog, networkCalls_app, invalidations_app, !length_app. lia.
Qed.

Lemma run_valid (thisYear : Z) (es : list Event) (w : World) :
  (forall f, selectedFile (ui w) = Some f -> acceptable f) ->
  (forall r, In r (networkCalls (log w)) -> valid_request r) ->
  (forall f, selectedFile (ui (run thisYear w es)) = Some f -> acceptable f)
  /\ (forall r, In r (networkCalls (log (run thisYear w es))) ->
                valid_request r).
Proof.
  revert w. induction es as [|e es IH]; intros w Hsel Hlog; [split; assumption|].
  rewrite run_cons.
  destruct (step_accounted thisYear w e)
    as [effs [Hlog' [_ [_ [Hreq Hsel']]]]].
  apply IH.
  - intros f Hf. destruct (Hsel' f Hf) as [Hold|Hnew]; [apply Hsel|]; assumption.
  - intros r Hr. rewrite Hlog', networkCalls_app in Hr.
    apply in_app_or in Hr. destruct Hr as [Hr|Hr]; [apply Hlog; exact Hr|].
    destruct (Hreq r Hr) as [data [image [Heq [Hfile Hv]]]].
    exists data, image. split; [exact Heq|]. split.
    + apply (artworkUploadSchema_well_formed _ _ Hv).
    + apply Hsel. exact Hfile.
Qed.

(** X9. The form never retries and never sends on its own: after any
    sequence of events it has sent at most as many requests as there were
    submit gestures, and an event that is not a submit gesture (a field
    edit, a drop, a file choice, a drag, a response of any kind) sends
    nothing. *)
Theorem requests_need_submit_gestures (thisYear : Z) (es : list Event) :
  (List.length (networkCalls (log (run thisYear (initialWorld thisYear) es)))
   <= count_submits es)%nat
  /\ (forall w e,
        is_submit e = false ->
        networkCalls (log (step thisYear w e)) = networkCalls (log w)).
Proof.
  split.
  - apply (run_requests_bounded thisYear es (initialWorld thisYear)).
  - intros w e He.
    destruct (step_accounted thisYear w e) as [effs [Hlog [_ [Hbudget _]]]].
    rewrite He in Hbudget. rewrite Hlog, networkCalls_app.
    destruct (networkCalls effs); [apply app_nil_r | cbn in Hbudget; lia].
Qed.

Lemma requests_need_submit_gestures_witness :
  networkCalls
    (log (step 2025 (run 2025 (initialWorld 2025) submit_once)
               (ResponseArrives 0 (response_rejected "Server error"))))
  = networkCalls (log (run 2025 (initialWorld 2025) submit_once)).
Proof.
  apply (proj2 (requests_need_submit_gestures 2025 [])). reflexivity.
Defined.

(** X10. The artwork list is never invalidated more often than uploads
    were answered: after any sequence of events, the invalidations so far
    plus the requests still unanswered do not exceed the requests sent. *)
Theorem invalidations_paid_by_requests (thisYear : Z) (es : list Event) :
  (List.length (invalidations (log (run thisYear (initialWorld thisYear) es)))
   + List.length (inFlight (run thisYear (initialWorld thisYear) es))
   <= List.length (networkCalls (log (run thisYear (initialWorld thisYear) es))))%nat.
Proof.
  apply run_balance. cbn. lia.
Qed.

(** X11. Whatever happens, the file the form holds has passed both checks:
    after any sequence of events a selected file is at most 10 MiB and of
    an image type. *)
Theorem selected_file_acceptable
  (thisYear : Z) (es : list Event) (f : File.t) :
  selectedFile (ui (run thisYear (initialWorld thisYear) es)) = Some f ->
  File.size f <= ten_MiB /\ Js.startsWith (File.type f) "image/" = true.
Proof.
  intros Hf.
  destruct (run_valid thisYear es (initialWorld thisYear)) as [Hsel _].
  - discriminate.
  - contradiction.
  - apply (Hsel f Hf).
Qed.

Lemma selected_file_acceptable_witness :
  File.size small_jpeg <= ten_MiB
  /\ Js.startsWith (File.type small_jpeg) "image/" = true.
Proof.
  apply (selected_file_acceptable 2025 submit_once small_jpeg). reflexivity.
Defined.

(** X12. Nothing invalid reaches the network: every request the form has
    sent after any sequence of events is a POST to /api/admin/paintings
    built from a record with non-empty title, medium and size and a year
    in [1900, 2030], and from an image of at most 10 MiB. *)
Theorem requests_are_valid (thisYear : Z) (es : list Event) (r : Request) :
  In r (networkCalls (log (run thisYear (initialWorld thisYear) es))) ->
  valid_request r
  /\ url r = "/api/admin/paintings"
  /\ method r = "POST"
  /\ credentials r = "include".
Proof.
  intros Hr.
  destruct (run_valid thisYear es (initialWorld thisYear)) as [_ Hlog].
  - discriminate.
  - contradiction.
  - assert (Hv := Hlog r Hr). split; [exact Hv|].
    destruct Hv as [data [image [Heq _]]]. subst r. repeat split.
Qed.

Lemma requests_are_valid_witness :
  valid_request (mutationFn_request untitled_data small_jpeg)
  /\ url (mutationFn_request untitled_data small_jpeg) = "/api/admin/paintings"
  /\ method (mutationFn_request untitled_data small_jpeg) = "POST"
  /\ credentials (mutationFn_request untitled_data small_jpeg) = "include".
Proof.
  apply (requests_are_valid 2025 submit_once). left. reflexivity.
Defined.

(** ** Submitting again *)

Lemma yearInput_valid_of_schema (v : FormValues) (data : ArtworkUploadData) :
  artworkUploadSchema v = inr data -> yearInput_valid v = true.
Proof.
  intros Hv. destruct (artworkUploadSchema_inr v data Hv) as [_ [Hy _]].
  apply number_min_max_inr in Hy. destruct Hy as [Hy Hrange].
  unfold yearInput_valid. rewrite Hy.
  apply andb_true_intro. split; apply Z.leb_le; lia.
Qed.

Lemma step_submit_sends (thisYear : Z) (w : World)
      (data : ArtworkUploadData) (image : File.t) :
  buttonDisabled w = false ->
  selectedFile (ui w) = Some image ->
  artworkUploadSchema (formValues (ui w)) = inr data ->
  step thisYear w SubmitGesture
  = mkWorld (mkState (Some image) (dragOver (ui w)) (formValues (ui w)) [] true)
            false
            (mutationFn_request data image :: inFlight w)
            (log w ++ [EFetch (mutationFn_request data image)]).
Proof.
  intros Hb Hf Hv. cbn [step].
  rewrite Hb, (yearInput_valid_of_schema _ _ Hv). cbn [negb].
  rewrite handle_eq, run_submit, Hv, Hf, Hb. reflexivity.
Qed.

Lemma step_submit_ready (thisYear : Z) (w : World)
      (data : ArtworkUploadData) (image : File.t) :
  ready w data image ->
  step thisYear w SubmitGesture
  = mkWorld (mkState (Some image) (dragOver (ui w)) (formValues (ui w)) [] true)
            false
            [mutationFn_request data image]
            (log w ++ [EFetch (mutationFn_request data image)]).
Proof.
  intros [Hin [Hb [Hp [Hf Hv]]]].
  rewrite (step_submit_sends thisYear w data image Hb Hf Hv), Hin.
  reflexivity.
Qed.








(** ** Two submits and the re-render *)

(** C9 fails on the code.  The only guard against a second submission is
    the disabled attribute of the button, which the document gets at the
    next render; [onSubmit] itself does not look at the pending flag.
    From an idle form with valid values and a file, two submit gestures
    with no render between them start two submissions: two requests for
    the same artwork are in flight together. *)
Theorem double_submit_before_render
  (thisYear : Z) (w : World) (data : ArtworkUploadData) (image : File.t) :
  ready w data image ->
  inFlight (run thisYear w [SubmitGesture; SubmitGesture])
  = [mutationFn_request data image; mutationFn_request data image]
  /\ networkCalls (log (run thisYear w [SubmitGesture; SubmitGesture]))
     = (networkCalls (log w)
        ++ [mutationFn_request data image; mutationFn_request data image])%list
  /\ isPending (ui (step thisYear w SubmitGesture)) = true
  /\ buttonDisabled (step thisYear w SubmitGesture) = false.
Proof.
  intros Hready. rewrite !run_cons.
  rewrite (step_submit_ready thisYear w data image Hready).
  destruct Hready as [_ [_ [_ [_ Hv]]]].
  rewrite (step_submit_sends thisYear _ data image);
    [|reflexivity | reflexivity | exact Hv].
  cbn [run fold_left log inFlight ui isPending buttonDisabled].
  rewrite !networkCalls_app. cbn. rewrite <- !app_assoc.
  repeat split.
Qed.

Lemma double_submit_before_render_witness :
  inFlight (run 2025 (initialWorld 2025) (submit_once ++ [SubmitGesture]))
  = [mutationFn_request untitled_data small_jpeg;
     mutationFn_request untitled_data small_jpeg].
Proof.
  assert (Hready : ready (run 2025 (initialWorld 2025)
                              [FileInput (Some [small_jpeg]);
                               FieldChange untitled_values])
                         untitled_data small_jpeg)
    by (repeat split).
  exact (proj1 (double_submit_before_render 2025 _ untitled_data small_jpeg
                  Hready)).
Defined.

Lemma step_settled_or_single (thisYear : Z) (w : World) (e : Event) :
  is_submit e = false ->
  settled_or_single w -> settled_or_single (step thisYear w e).
Proof.
  intros He Hw.
  destruct e as [v|files|files| | | | |i response]; cbn [step];
    try discriminate He.
  - apply handle_quiet; [apply quiet_setFormValues | exact Hw].
  - apply handle_quiet; [apply quiet_handleDrop | exact Hw].
  - apply handle_quiet; [apply quiet_handleFileInput | exact Hw].
  - apply handle_quiet; [apply quiet_setDragOver | exact Hw].
  - apply handle_quiet; [apply quiet_setDragOver | exact Hw].
  - exact Hw.
  - destruct Hw as [[Hin Hp]|[r [Hin Hp]]]; rewrite Hin.
    + destruct i; cbn [nth_error]; left; split; assumption.
    + destruct i as [|i]; cbn [nth_error].
      * cbn [remove_nth]. rewrite handle_eq.
        unfold settled_or_single. cbn [inFlight ui].
        rewrite run_settle.
        destruct (quiet_callbacks thisYear response
                    (mkState (selectedFile (ui w)) (dragOver (ui w))
                             (formValues (ui w)) (formErrors (ui w)) false))
          as [Hnet Hpend].
        rewrite Hnet, Hpend. left. split; reflexivity.
      * destruct i; cbn [nth_error]; right; exists r; split; assumption.
Qed.

Lemma step_render_submit (thisYear : Z) (w : World) :
  settled_or_single w ->
  settled_or_single (step thisYear (step thisYear w Render) SubmitGesture).
Proof.
  intros Hw. cbn [step buttonDisabled ui formValues]. unfold submitButton_disabled.
  destruct (isPending (ui w)) eqn:Hp; [exact Hw|].
  destruct (negb (yearInput_valid (formValues (ui w)))); [exact Hw|].
  destruct Hw as [[Hin _]|[r [_ Hp']]]; [|congruence].
  rewrite handle_eq. unfold settled_or_single. cbn [inFlight ui].
  rewrite Hin, app_nil_r.
  destruct (run_submit_cases (ui w)) as [[Hnet Hpend]|[r [Hnet Hpend]]];
    rewrite Hnet, Hpend.
  - left. split; [reflexivity | exact Hp].
  - right. exists r. split; reflexivity.
Qed.

Lemma run_rendered_before_submit (thisYear : Z) (n : nat) :
  forall (es : list Event) (w : World),
    (List.length es <= n)%nat ->
    rendered_before_submit es = true ->
    settled_or_single w ->
    settled_or_single (run thisYear w es).
Proof.
  induction n as [|n IH]; intros es w Hlen Hes Hw.
  - destruct es; [exact Hw | cbn in Hlen; lia].
  - destruct es as [|e es]; [exact Hw|]. cbn [List.length] in Hlen.
    destruct e as [v|files|files| | | | |i response];
      try (rewrite run_cons; apply IH;
           [lia | exact Hes | apply step_settled_or_single;
                              [reflexivity | exact Hw]]).
    + discriminate Hes.
    + destruct es as [|e' es'].
      * rewrite run_cons. apply IH; [cbn; lia | reflexivity |].
        apply step_settled_or_single; [reflexivity | exact Hw].
      * destruct e' as [v|files|files| | | | |i response];
          try (rewrite run_cons; apply IH;
               [lia | exact Hes | apply step_settled_or_single;
                                  [reflexivity | exact Hw]]).
        rewrite !run_cons. cbn [List.length] in Hlen. apply IH.
        -- lia.
        -- exact Hes.
        -- apply step_render_submit. exact Hw.
Qed.

(** X17. When the document is never behind the state at a submit, that
    is when every submit gesture comes right after a render, the form has
    at most one submission in flight after any sequence of events, and a
    gesture made while one is pending sends nothing. *)
Theorem one_submission_when_rendered (thisYear : Z) (es : list Event) :
  rendered_before_submit es = true ->
  (List.length (inFlight (run thisYear (initialWorld thisYear) es)) <= 1)%nat
  /\ (inFlight (run thisYear (initialWorld thisYear) es) <> [] ->
      step thisYear
           (step thisYear (run thisYear (initialWorld thisYear) es) Render)
           SubmitGesture
      = step thisYear (run thisYear (initialWorld thisYear) es) Render).
Proof.
  intros Hes.
  assert (Hinv : settled_or_single (run thisYear (initialWorld thisYear) es)).
  { apply (run_rendered_before_submit thisYear (List.length es));
      [lia | exact Hes | left; split; reflexivity]. }
  destruct Hinv as [[Hin Hp]|[r [Hin Hp]]]; rewrite Hin.
  - split; [cbn; lia | congruence].
  - split; [cbn; lia|]. intros _.
    cbn [step buttonDisabled]. unfold submitButton_disabled. rewrite Hp.
    reflexivity.
Qed.

Lemma one_submission_when_rendered_witness :
  (List.length
     (inFlight (run 2025 (initialWorld 2025)
                    [FileInput (Some [small_jpeg]); FieldChange untitled_values;
                     Render; SubmitGesture; Render; SubmitGesture]))
   <= 1)%nat
  /\ inFlight (run 2025 (initialWorld 2025)
                   [FileInput (Some [small_jpeg]); FieldChange untitled_values;
                    Render; SubmitGesture; Render; SubmitGesture])
     = [mutationFn_request untitled_data small_jpeg].
Proof.
  split; [|reflexivity].
  apply (proj1 (one_submission_when_rendered 2025
                  [FileInput (Some [small_jpeg]); FieldChange untitled_values;
                   Render; SubmitGesture; Render; SubmitGesture]
                  eq_refl)).
Defined.

(** * Further properties of the admin panel *)

(** X15. The open state of the panel survives a logout.  When an open
    panel loses its session it renders nothing and both queries are
    disabled, but it stays open underneath: as soon as the session is
    authenticated again the dialog is rendered open, with both queries
    enabled, without any new open-admin-panel signal. *)
Theorem open_state_survives_logout
  (w : AdminPanel.World) (paintings : list Painting)
  (messages : list ContactMessage) :
  AdminPanel.isOpen w = true ->
  AdminPanel.render
    (AdminPanel.isAuthenticated (AdminPanel.step w (AdminPanel.AuthChanged false)))
    (AdminPanel.isOpen (AdminPanel.step w (AdminPanel.AuthChanged false)))
    paintings messages = None
  /\ AdminPanel.fetches
       (AdminPanel.isAuthenticated (AdminPanel.step w (AdminPanel.AuthChanged false)))
       (AdminPanel.isOpen (AdminPanel.step w (AdminPanel.AuthChanged false)))
     = []
  /\ AdminPanel.render
       (AdminPanel.isAuthenticated
          (AdminPanel.run w [AdminPanel.AuthChanged false;
                             AdminPanel.AuthChanged true]))
       (AdminPanel.isOpen
          (AdminPanel.run w [AdminPanel.AuthChanged false;
                             AdminPanel.AuthChanged true]))
       paintings messages
     = Some (AdminPanel.mkDialog true (AdminPanel.renderArtworks paintings)
                                 (AdminPanel.renderMessages messages))
  /\ AdminPanel.fetches
       (AdminPanel.isAuthenticated
          (AdminPanel.run w [AdminPanel.AuthChanged false;
                             AdminPanel.AuthChanged true]))
       (AdminPanel.isOpen
          (AdminPanel.run w [AdminPanel.AuthChanged false;
                             AdminPanel.AuthChanged true]))
     = [["/api/paintings"]; ["/api/admin/messages"]].
Proof.
  intros Hopen. cbn. rewrite Hopen. repeat split.
Qed.

Lemma open_state_survives_logout_witness :
  AdminPanel.render
    (AdminPanel.isAuthenticated
       (AdminPanel.run open_panel [AdminPanel.AuthChanged false;
                                   AdminPanel.AuthChanged true]))
    (AdminPanel.isOpen
       (AdminPanel.run open_panel [AdminPanel.AuthChanged false;
                                   AdminPanel.AuthChanged true]))
    [] newest_first
  = Some (AdminPanel.mkDialog true (AdminPanel.renderArtworks [])
                              (AdminPanel.renderMessages newest_first)).
Proof.
  apply (proj1 (proj2 (proj2
           (open_state_survives_logout open_panel [] newest_first eq_refl)))).
Defined.

(** X16. The panel is only ever opened under an authenticated session: an
    event that raises the open flag finds the session authenticated and
    leaves it so; a change of session alone never opens the panel. *)
Theorem panel_opens_only_authenticated (w : AdminPanel.World) (e : AdminPanel.Event) :
  AdminPanel.isOpen w = false ->
  AdminPanel.isOpen (AdminPanel.step w e) = true ->
  AdminPanel.isAuthenticated w = true
  /\ AdminPanel.isAuthenticated (AdminPanel.step w e) = true
  /\ e <> AdminPanel.AuthChanged true
  /\ e <> AdminPanel.AuthChanged false.
Proof.
  intros Hclosed Hopen.
  destruct e as [b| |b]; unfold AdminPanel.step, AdminPanel.handleOpenAdmin in *;
    cbn in *.
  - congruence.
  - destruct (AdminPanel.isAuthenticated w); [|congruence].
    repeat split; discriminate.
  - destruct (AdminPanel.isAuthenticated w); [|congruence].
    repeat split; discriminate.
Qed.

Lemma panel_opens_only_authenticated_witness :
  AdminPanel.isAuthenticated (AdminPanel.initialWorld true) = true
  /\ AdminPanel.isAuthenticated
       (AdminPanel.step (AdminPanel.initialWorld true) AdminPanel.OpenAdminPanel)
     = true
  /\ AdminPanel.OpenAdminPanel <> AdminPanel.AuthChanged true
  /\ AdminPanel.OpenAdminPanel <> AdminPanel.AuthChanged false.
Proof.
  apply (panel_opens_only_authenticated (AdminPanel.initialWorld true)
           AdminPanel.OpenAdminPanel); reflexivity.
Defined.
